(** * systole: plotting front-ends and the detection contract

    A shallow embedding of [systole/plots/utils.py] and
    [systole/plots/plot_evoked.py], together with the contract of the
    detection layer ([systole.detection]) that these front-ends and the test
    suite rely on.

    Python values are modelled as they appear in the code: strings as
    [string], dictionaries as [gmap], floats as IEEE-754 binary64 values
    ([spec_float] at precision 53), exceptions as an error type threaded
    through a small logging monad that also records the imports and the
    calls into the other modules of the package (peak detection, heart-rate
    conversion, epoching, summary computation, rendering back-ends). *)

From Stdlib Require Import ZArith QArith List Bool String Ascii Lia.
From Stdlib Require Import Floats.SpecFloat.
From stdpp Require Import base option list gmap strings pretty.

Open Scope string_scope.
Open Scope Z_scope.

(** ** The Python runtime the code relies on *)

Module Py.

(** Exceptions raised by the modelled code or by its collaborators. *)
Inductive exn : Type :=
| ValueError (msg : string)
| KeyError (msg : string)
| ImportError (msg : string)
| ModuleNotFoundError (name : string)
| AttributeError (name : string)
| UnboundLocalError (var : string)
| IndexError (msg : string)
| ZeroDivisionError
| OverflowError.

(** Imports, and calls into the other modules of the package. *)
Inductive event : Type :=
| Imported (module : string)
| Called (function : string).

(** A computation logs the events it performed and either raises or
    returns. *)
Definition M (A : Type) : Type := (list event * (exn + A))%type.

Definition ret {A} (x : A) : M A := ([], inr x).

Definition raise {A} (e : exn) : M A := ([], inl e).

Definition bind {A B} (m : M A) (k : A -> M B) : M B :=
  match m with
  | (log, inl e) => (log, inl e)
  | (log, inr x) => let '(log', r) := k x in (app log log', r)
  end.

(** A call to a collaborator: the call is logged, its outcome propagated. *)
Definition call {A} (name : string) (outcome : exn + A) : M A :=
  ([Called name], outcome).

Definition trace {A} (m : M A) : list event := fst m.

Definition outcome {A} (m : M A) : exn + A := snd m.

Definition raises {A} (m : M A) (e : exn) : Prop := outcome m = inl e.

Definition returns {A} (m : M A) (x : A) : Prop := outcome m = inr x.

(** [str.lower] restricted to ASCII letters; every other byte is kept. *)
Definition lower_ascii (c : ascii) : ascii :=
  let n := nat_of_ascii c in
  if (Nat.leb 65 n && Nat.leb n 90)%bool then ascii_of_nat (n + 32) else c.

Fixpoint lower (s : string) : string :=
  match s with
  | EmptyString => EmptyString
  | String c r => String (lower_ascii c) (lower r)
  end.

(** *** binary64 floats *)

Definition float : Type := spec_float.

Definition prec : Z := 53.
Definition emax : Z := 1024.

Definition fadd : float -> float -> float := SFadd prec emax.
Definition fsub : float -> float -> float := SFsub prec emax.
Definition fmul : float -> float -> float := SFmul prec emax.
Definition fdiv : float -> float -> float := SFdiv prec emax.

(** [float(z)]: the int is rounded to the nearest binary64 value. Python
    raises [OverflowError] for an int that rounds to 2^1024 or more, where
    this gives an infinity; ints below 2^53 in magnitude are exact. *)
Definition float_of_int (z : Z) : float := binary_normalize prec emax z 0 false.

(** The float that the decimal literal [m]e-[k] denotes (for a mantissa
    below 2^53 and [k] at most 22 both operands are exact, so the quotient is
    the correctly rounded literal). *)
Definition decimal (m : Z) (k : nat) : float :=
  fdiv (float_of_int m) (float_of_int (10 ^ Z.of_nat k)).

(** [a / b] on ints (true division). Python rounds the exact quotient once;
    this rounds the operands first, which is the same for operands below
    2^53 in magnitude. *)
Definition int_truediv (a b : Z) : exn + float :=
  if Z.eqb b 0 then inl ZeroDivisionError
  else inr (fdiv (float_of_int a) (float_of_int b)).

(** [m * 2^e] rounded to the nearest integer, ties to even. *)
Definition round_half_even (m : positive) (e : Z) : Z :=
  match e with
  | Zneg p =>
      let d := Z.pow_pos 2 p in
      let q := Z.pos m / d in
      let r := Z.pos m mod d in
      match Z.compare (2 * r) d with
      | Lt => q
      | Gt => q + 1
      | Eq => if Z.even q then q else q + 1
      end
  | _ => Z.pos m * 2 ^ e
  end.

(** The built-in [round(x)] on a float. *)
Definition round (x : float) : exn + Z :=
  match x with
  | S754_zero _ => inr 0
  | S754_finite s m e =>
      let n := round_half_even m e in inr (if s then - n else n)
  | S754_infinity _ => inl OverflowError
  | S754_nan => inl (ValueError "cannot convert float NaN to integer")
  end.

(** [ceil] of [m * 2^e]. *)
Definition ceil_pos (m : positive) (e : Z) : Z :=
  match e with
  | Zneg p =>
      let d := Z.pow_pos 2 p in
      Z.pos m / d + (if Z.eqb (Z.pos m mod d) 0 then 0 else 1)
  | _ => Z.pos m * 2 ^ e
  end.

Definition floor_pos (m : positive) (e : Z) : Z :=
  match e with
  | Zneg p => Z.pos m / Z.pow_pos 2 p
  | _ => Z.pos m * 2 ^ e
  end.

Definition ceil (x : float) : exn + Z :=
  match x with
  | S754_zero _ => inr 0
  | S754_finite false m e => inr (ceil_pos m e)
  | S754_finite true m e => inr (- floor_pos m e)
  | S754_infinity _ => inl (ValueError "Maximum allowed size exceeded")
  | S754_nan => inl (ValueError "arange: cannot compute length")
  end.

End Py.

Notation "x <- m ;; k" := (Py.bind m (fun x => k))
  (at level 100, m at next level, right associativity).

(** ** NumPy arrays and slicing *)

Module Np.
Import Py.

(** An n-dimensional array: its shape and its items in row-major order. *)
Record ndarray : Type := mk_ndarray { shape : list nat; items : list float }.

Definition ndim (a : ndarray) : nat := length (shape a).

(** A 2-d array (trial * time): the number of columns is kept apart so that
    an array without rows still has a width. *)
Record array2 : Type := mk_array2 { ncols : nat; rows : list (list float) }.

Definition well_formed (a : array2) : Prop :=
  Forall (fun r => length r = ncols a) (rows a).

(** [xs[::step]] for a positive step: items 0, step, 2*step, ... *)
Fixpoint every_nth_from {A} (skip step' : nat) (xs : list A) : list A :=
  match xs with
  | [] => []
  | x :: r =>
      match skip with
      | O => x :: every_nth_from step' step' r
      | S k => every_nth_from k step' r
      end
  end.

Definition stride {A} (step : positive) (xs : list A) : list A :=
  every_nth_from 0 (Nat.pred (Pos.to_nat step)) xs.

(** [xs[::step]] for any int step: zero raises, a negative step walks the
    sequence backwards from its last item. *)
Definition slice_step {A} (step : Z) (xs : list A) : exn + list A :=
  match step with
  | Z0 => inl (ValueError "slice step cannot be zero")
  | Zpos p => inr (stride p xs)
  | Zneg p => inr (stride p (rev xs))
  end.

(** [a[:, ::step]] on a 2-d array. *)
Definition slice_columns (step : Z) (a : array2) : exn + array2 :=
  match step with
  | Z0 => inl (ValueError "slice step cannot be zero")
  | Zpos p =>
      inr {| ncols := length (stride p (seq 0 (ncols a)));
             rows := map (stride p) (rows a) |}
  | Zneg p =>
      inr {| ncols := length (stride p (seq 0 (ncols a)));
             rows := map (fun r => stride p (rev r)) (rows a) |}
  end.

(** The number of items of [np.arange(start, stop, step)] on floats:
    [ceil((stop - start) / step)], nothing when that is not positive. *)
Definition arange_length (start stop step : float) : exn + Z :=
  match ceil (fdiv (fsub stop start) step) with
  | inl e => inl e
  | inr n => inr (Z.max 0 n)
  end.

(** [np.arange(start, stop, step)]: the first two items are [start] and
    [start + step]; item [i] is [start + i * delta] where [delta] is the
    difference of the first two. *)
Definition arange (start stop step : float) : exn + list float :=
  match arange_length start stop step with
  | inl e => inl e
  | inr n =>
      let next := fadd start step in
      let delta := fsub next start in
      inr (map (fun i : nat =>
                  match i with
                  | O => start
                  | S O => next
                  | _ => fadd start (fmul (float_of_int (Z.of_nat i)) delta)
                  end)
               (seq 0 (Z.to_nat n)))
  end.

End Np.

(** ** [systole/plots/utils.py] *)

Module Utils.
Import Py Np.

(** What [get_plotting_function] observes of the installation: whether
    [import bokeh] succeeds and, if so, whether its version is at least
    1.4.0; which modules can be imported; which attributes they have; and how
    the set of backend names prints (the order of a set of strings is not
    fixed). *)
Record installation : Type := mk_installation {
  bokeh_probe : option bool;
  module_exists : string -> bool;
  has_attr : string -> string -> bool;
  backend_set_repr : string
}.

(** A function obtained by [getattr(module, name)]. *)
Record plotting_method : Type := mk_plotting_method {
  pm_module : string;
  pm_name : string
}.

Definition _backend : gmap string string :=
  <["mpl" := "matplotlib"]>
    (<["bokeh" := "bokeh"]> (<["matplotlib" := "matplotlib"]> empty)).

Definition backend_module (backend plot_module : string) : string :=
  "systole.plots.backends." ++ backend ++ "." ++ plot_module.

Definition unknown_backend_message (inst : installation) (backend : string)
  : string :=
  "Backend " ++ backend ++ " is not implemented. Try backend in "
    ++ backend_set_repr inst.

Definition bokeh_needed : string :=
  "'bokeh' backend needs Bokeh (1.4.0+) installed. Please upgrade or install".

Section GetPlottingFunction.

(** [str.lower]: any function on strings will do for the results below;
    [Py.lower] is its restriction to ASCII. *)
Variable str_lower : string -> string.
Variable inst : installation.

(** The selector is lower-cased, then looked up in [_backend]. *)
Definition resolve_backend (backend : string) : M string :=
  let backend := str_lower backend in
  match _backend !! backend with
  | Some b => ret b
  | None => raise (KeyError (unknown_backend_message inst backend))
  end.

Definition check_bokeh (backend : string) : M unit :=
  if String.eqb backend "bokeh" then
    match bokeh_probe inst with
    | Some true => ([Imported "bokeh"], inr tt)
    | _ => ([Imported "bokeh"], inl (ImportError bokeh_needed))
    end
  else ret tt.

Definition import_module (name : string) : M string :=
  ([Imported name],
   if module_exists inst name then inr name
   else inl (ModuleNotFoundError name)).

Definition getattr (module name : string) : M plotting_method :=
  if has_attr inst module name
  then ret {| pm_module := module; pm_name := name |}
  else raise (AttributeError name).

Definition get_plotting_function (plot_name plot_module backend : string)
  : M plotting_method :=
  backend <- resolve_backend backend ;;
  _ <- check_bokeh backend ;;
  module <- import_module (backend_module backend plot_module) ;;
  getattr module plot_name.

End GetPlottingFunction.

(** *** Summary tables *)

(** A summary dataframe: one row per metric, columns [Metric] and
    [Values]. *)
Definition dataframe : Type := list (string * float).

(** [df[df.Metric == name]["Values"].iloc[0]] *)
Definition metric (df : dataframe) (name : string) : M float :=
  match List.find (fun r => String.eqb (fst r) name) df with
  | Some r => ret (snd r)
  | None => raise (IndexError "single positional indexer is out-of-bounds")
  end.

Inductive cell : Type :=
| Text (s : string)
| Number (x : float)
| Blank.

(** A list of table cells written as labels: [None] stays [None]. *)
Definition texts (l : list (option string)) : list cell :=
  map (fun o => match o with Some s => Text s | None => Blank end) l.

(** A list of table cells read from the dataframe, left to right; the first
    metric that is missing raises. *)
Fixpoint values (df : dataframe) (l : list (option string)) : M (list cell) :=
  match l with
  | [] => ret []
  | None :: r => cs <- values df r ;; ret (Blank :: cs)
  | Some name :: r =>
      x <- metric df name ;;
      cs <- values df r ;;
      ret (Number x :: cs)
  end.

Definition table_data : Type := list (string * list cell).

Inductive table : Type :=
| BokehColumn (data : table_data) (columns : list (string * string))
              (width height : option Z)
| Tabulate (data : table_data) (headers : list string)
           (tablefmt floatfmt : string).

(** The last statements of the three table functions: only the two known
    backends bind [table] before it is returned. *)
Definition render_table (backend : string) (data : table_data)
  (columns : list (string * string)) (width height : option Z) : M table :=
  if String.eqb backend "bokeh" then
    ret (BokehColumn data columns width height)
  else if String.eqb backend "tabulate" then
    ret (Tabulate data (map snd columns) "rst" ".4f")
  else raise (UnboundLocalError "table").

Definition no_rr_message : string :=
  "If no summary dataframe is provided, you must provide an RR time series.".

Section Tables.

(** The three summaries of [systole.hrv]. *)
Variable time_domain : ndarray -> string -> exn + dataframe.
Variable frequency_domain : ndarray -> string -> exn + dataframe.
Variable nonlinear_domain : ndarray -> string -> exn + dataframe.

(** The common prologue: use the dataframe that was passed, or compute it
    from [rr]. *)
Definition summary (name : string)
  (domain : ndarray -> string -> exn + dataframe)
  (rr : option ndarray) (input_type : option string)
  (df : option dataframe) : M dataframe :=
  match df with
  | Some d => ret d
  | None =>
      match rr, input_type with
      | Some r, Some t => call name (domain r t)
      | _, _ => raise (ValueError no_rr_message)
      end
  end.

Definition time_table (rr : option ndarray) (input_type : option string)
  (time_df : option dataframe) (backend : string) (width height : option Z)
  : M table :=
  time_df <- summary "time_domain" time_domain rr input_type time_df ;;
  value <- values time_df
    [Some "MeanRR"; Some "MedianRR"; Some "MinRR"; Some "MaxRR"; None;
     Some "MeanBPM"; Some "MedianBPM"; Some "MinBPM"; Some "MaxBPM"; None;
     Some "SDNN"; Some "SDSD"; Some "RMSSD"; Some "nn50"; Some "pnn50"] ;;
  let data :=
    [("variable", texts
        [Some "Mean RR"; Some "Median RR"; Some "Minimun RR";
         Some "Maximum RR"; None;
         Some "Mean BPM"; Some "Median BPM"; Some "Minimun BPM";
         Some "Maximum BPM"; None;
         Some "SDNN"; Some "SDSD"; Some "RMSSD"; Some "nn50"; Some "pnn50"]);
     ("units", texts
        [Some "milliseconds (ms)"; Some "milliseconds (ms)";
         Some "milliseconds (ms)"; Some "milliseconds (ms)"; None;
         Some "beats per minute (bpm)"; Some "beats per minute (bpm)";
         Some "beats per minute (bpm)"; Some "beats per minute (bpm)"; None;
         Some "milliseconds (ms)"; Some "milliseconds (ms)";
         Some "milliseconds (ms)"; Some "counts"; Some "%"]);
     ("value", value)] in
  render_table backend data
    [("variable", "Variable"); ("units", "Units"); ("value", "Value")]
    width height.

Definition frequency_table (rr : option ndarray) (input_type : option string)
  (frequency_df : option dataframe) (backend : string)
  (width height : option Z) : M table :=
  frequency_df <-
    summary "frequency_domain" frequency_domain rr input_type frequency_df ;;
  peaks <- values frequency_df
    [Some "vlf_peak"; Some "lf_peak"; Some "hf_peak"; None; None] ;;
  power <- values frequency_df
    [Some "vlf_power"; Some "lf_power"; Some "hf_power"; Some "total_power";
     Some "lf_hf_ratio"] ;;
  power_per <- values frequency_df
    [Some "vlf_power_per"; Some "lf_power_per"; Some "hf_power_per"; None;
     None] ;;
  power_nu <- values frequency_df
    [None; Some "lf_power_nu"; Some "hf_power_nu"; None; None] ;;
  let data :=
    [("frequencies", texts
        [Some "VLF (0-0.04 Hz)"; Some "LF (0.04-0.15 Hz)";
         Some "HF (0.15-0.4 Hz)"; Some "Total"; Some "LF/HF"]);
     ("peaks", peaks); ("power", power); ("power_per", power_per);
     ("power_nu", power_nu)] in
  render_table backend data
    [("frequencies", "Frequency Band"); ("peaks", "Peaks (Hz)");
     ("power", "Power (ms²)"); ("power_per", "Power (%)");
     ("power_nu", "Power (n.u.)")]
    width height.

Definition nonlinear_table (rr : option ndarray) (input_type : option string)
  (nonlinear_df : option dataframe) (backend : string)
  (width height : option Z) : M table :=
  nonlinear_df <-
    summary "nonlinear_domain" nonlinear_domain rr input_type nonlinear_df ;;
  value <- values nonlinear_df
    [None; Some "SD1"; Some "SD2"; None; None; Some "l_mean"; Some "l_max";
     Some "recurrence_rate"; Some "determinism_rate";
     Some "shannon_entropy"] ;;
  let data :=
    [("variable", texts
        [Some "-- Poincaré plot --"; Some "SD1"; Some "SD2"; None;
         Some "-- Recurrence plot --"; Some "Mean line length (Lmean)";
         Some "Max line length (Lmax)"; Some "Recurrence rate (REC)";
         Some "Determinism (DET)"; Some "Shannon Entropy (ShanEn)"]);
     ("units", texts
        [None; Some "milliseconds (ms)"; Some "milliseconds (ms)"; None;
         None; Some "beats"; Some "beats"; Some "%"; Some "%"; None]);
     ("value", value)] in
  render_table backend data
    [("variable", "Variable"); ("units", "Units"); ("value", "Value")]
    width height.

End Tables.

End Utils.

(** ** [systole/plots/plot_evoked.py] *)

Module PlotEvoked.
Import Py Np Utils.

(** [epochs]: one 2-d array, or a list of them (one per condition). *)
Inductive epochs_arg : Type :=
| EpochsArray (a : array2)
| EpochsList (l : list array2).

(** [palette]: [None], a list of colours, or any other object. *)
Inductive palette_arg : Type :=
| PaletteNone
| PaletteList (colours : list string)
| PaletteOther.

Inductive labels_arg : Type :=
| LabelsStr (s : string)
| LabelsList (l : list string).

Inductive baseline_arg : Type :=
| BaselinePoint (t : float)
| BaselineInterval (t0 t1 : float).

Inductive ci_arg : Type :=
| CiInt (n : Z)
| CiStr (s : string).

(** The keyword arguments of [plot_evoked]. *)
Record arguments : Type := mk_arguments {
  epochs : option epochs_arg;
  signal : option ndarray;
  triggers : option ndarray;
  triggers_idx : option (list (list Z));
  rr : option ndarray;
  input_type : string;
  reject : option ndarray;
  modality : string;
  tmin : float;
  tmax : float;
  sfreq : Z;
  apply_baseline : option baseline_arg;
  decim : option Z;
  labels : option labels_arg;
  unit : string;
  kind : string;
  ci : ci_arg;
  ax : option nat;
  figsize : option (Z * Z);
  backend : string;
  palette : palette_arg
}.

(** The defaults of the signature. *)
Definition defaults : arguments :=
  {| epochs := None; signal := None; triggers := None; triggers_idx := None;
     rr := None; input_type := "peaks"; reject := None; modality := "ppg";
     tmin := float_of_int (-1); tmax := float_of_int 10; sfreq := 1000;
     apply_baseline := Some (BaselinePoint (float_of_int 0)); decim := None;
     labels := None; unit := "bpm"; kind := "cubic"; ci := CiStr "sd";
     ax := None; figsize := None; backend := "matplotlib";
     palette := PaletteNone |}.

(** What is handed to the rendering back-end. *)
Record plot_evoked_args : Type := mk_plot_evoked_args {
  pa_epochs : list array2;
  pa_time : list float;
  pa_palette : list string;
  pa_ax : option nat;
  pa_figsize : option (Z * Z);
  pa_labels : list string;
  pa_unit : string;
  pa_ci : ci_arg
}.

(** [f"Condition {i+1}"] for [i] in [range(n)]. *)
Definition default_labels (n : nat) : list string :=
  map (fun i : nat => "Condition " ++ pretty (i + 1)%nat) (seq 0 n).

(** The time vector:
    [np.arange(round(tmin * sfreq) / sfreq, round(tmax * sfreq) / sfreq,
               1 / sfreq)]. *)
Definition time_vector (tmin tmax : float) (sfreq : Z) : exn + list float :=
  match round (fmul tmin (float_of_int sfreq)) with
  | inl e => inl e
  | inr first =>
      match int_truediv first sfreq with
      | inl e => inl e
      | inr start =>
          match round (fmul tmax (float_of_int sfreq)) with
          | inl e => inl e
          | inr last =>
              match int_truediv last sfreq with
              | inl e => inl e
              | inr stop =>
                  match int_truediv 1 sfreq with
                  | inl e => inl e
                  | inr step => arange start stop step
                  end
              end
          end
      end
  end.

(** The number of samples of the window
    [[trigger + round(tmin * sfreq), trigger + round(tmax * sfreq))]. *)
Definition window_length (tmin tmax : float) (sfreq : Z) : exn + Z :=
  match round (fmul tmin (float_of_int sfreq)) with
  | inl e => inl e
  | inr first =>
      match round (fmul tmax (float_of_int sfreq)) with
      | inl e => inl e
      | inr last => inr (last - first)
      end
  end.

(** The number of items of the time vector: the same bounds and step, with
    [arange_length] in place of [arange]. *)
Definition time_vector_length (tmin tmax : float) (sfreq : Z) : exn + Z :=
  match round (fmul tmin (float_of_int sfreq)) with
  | inl e => inl e
  | inr first =>
      match int_truediv first sfreq with
      | inl e => inl e
      | inr start =>
          match round (fmul tmax (float_of_int sfreq)) with
          | inl e => inl e
          | inr last =>
              match int_truediv last sfreq with
              | inl e => inl e
              | inr stop =>
                  match int_truediv 1 sfreq with
                  | inl e => inl e
                  | inr step => arange_length start stop step
                  end
              end
          end
      end
  end.

(** [for i in range(len(epochs)): epochs[i] = epochs[i][:, ::decim]] *)
Fixpoint decimate_epochs (decim : Z) (epochs : list array2)
  : exn + list array2 :=
  match epochs with
  | [] => inr []
  | a :: r =>
      match slice_columns decim a with
      | inl e => inl e
      | inr a' =>
          match decimate_epochs decim r with
          | inl e => inl e
          | inr r' => inr (a' :: r')
          end
      end
  end.

(** The block [if decim is not None: ...]. The source stores each sliced
    array back into the list [epochs]; the new list is returned here. *)
Definition decimate (decim : option Z) (epochs : list array2)
  (time : list float) : exn + (list array2 * list float) :=
  match decim with
  | None => inr (epochs, time)
  | Some d =>
      match decimate_epochs d epochs with
      | inl e => inl e
      | inr epochs' =>
          match slice_step d time with
          | inl e => inl e
          | inr time' => inr (epochs', time')
          end
      end
  end.

Definition lift {A} (r : exn + A) : M A := ([], r).

Definition signal_shape_message : string :=
  "The signal should be a 1d array, list or pandas serie".

Definition rr_shape_message : string :=
  "The RR intervals (rr) should be a 1d array, list or pandas serie".

Definition palette_message : string := "Invalid palette provided.".

Section PlotEvoked.

Variable str_lower : string -> string.
Variable inst : installation.

(** Seaborn's ["deep"] palette. *)
Variable deep : list string.

(** The collaborators: [systole.detection], [systole.utils] and the
    rendering back-end. [heart_rate] takes [sfreq] only on the [rr] path. *)
Variable ppg_peaks : ndarray -> Z -> exn + (ndarray * ndarray).
Variable ecg_peaks : ndarray -> Z -> exn + (ndarray * ndarray).
Variable heart_rate :
  ndarray -> string -> string -> string -> option Z -> exn + (ndarray * ndarray).
Variable to_epochs :
  option ndarray -> option ndarray -> option (list (list Z)) ->
  option ndarray -> Z -> option baseline_arg -> float -> float ->
  exn + (epochs_arg * list Z).
Variable figure : Type.
Variable render : plotting_method -> plot_evoked_args -> exn + figure.

Definition define_palette (p : palette_arg) : M (list string) :=
  match p with
  | PaletteNone => ret deep
  | PaletteList l => ret l
  | PaletteOther => raise (ValueError palette_message)
  end.

Definition define_figsize (figsize : option (Z * Z)) (backend : string)
  : option (Z * Z) :=
  match figsize with
  | Some s => Some s
  | None =>
      if String.eqb backend "matplotlib" then Some (13, 5)
      else if String.eqb backend "bokeh" then Some (400, 400)
      else None
  end.

(** The branch [if signal is not None: ...]: [peaks] is bound only for the
    two known modalities. *)
Definition rate_of_signal (a : arguments) (signal : ndarray) : M ndarray :=
  if Nat.ltb 1 (ndim signal) then
    raise (ValueError signal_shape_message)
  else
    peaks <-
      (if String.eqb (modality a) "ppg" then
         r <- call "ppg_peaks" (ppg_peaks signal (sfreq a)) ;; ret (Some (snd r))
       else if String.eqb (modality a) "ecg" then
         r <- call "ecg_peaks" (ecg_peaks signal (sfreq a)) ;; ret (Some (snd r))
       else ret None) ;;
    match peaks with
    | None => raise (UnboundLocalError "peaks")
    | Some p =>
        r <- call "heart_rate" (heart_rate p (kind a) (unit a) "peaks" None) ;;
        ret (fst r)
    end.

(** The branch [elif rr is not None: ...]. *)
Definition rate_of_rr (a : arguments) (rr : ndarray) : M ndarray :=
  if Nat.ltb 1 (ndim rr) then
    raise (ValueError rr_shape_message)
  else
    r <- call "heart_rate"
           (heart_rate rr (kind a) (unit a) (input_type a) (Some (sfreq a))) ;;
    ret (fst r).

Definition instantaneous_rate (a : arguments) : M (option ndarray) :=
  match signal a with
  | Some s => r <- rate_of_signal a s ;; ret (Some r)
  | None =>
      match rr a with
      | Some r => r' <- rate_of_rr a r ;; ret (Some r')
      | None => ret None
      end
  end.

Definition epoching (a : arguments) (rr : option ndarray) : M (list array2) :=
  e <- match epochs a with
       | Some e => ret e
       | None =>
           r <- call "to_epochs"
                  (to_epochs rr (triggers a) (triggers_idx a) (reject a)
                     (sfreq a) (apply_baseline a) (tmin a) (tmax a)) ;;
           ret (fst r)
       end ;;
  ret match e with
      | EpochsArray x => [x]
      | EpochsList l => l
      end.

Definition define_labels (labels : option labels_arg) (n : nat) : list string :=
  match labels with
  | None => default_labels n
  | Some (LabelsStr s) => [s]
  | Some (LabelsList l) => l
  end.

Definition plot_evoked (a : arguments) : M figure :=
  this_palette <- define_palette (palette a) ;;
  let figsize := define_figsize (figsize a) (backend a) in
  rr <- instantaneous_rate a ;;
  epochs <- epoching a rr ;;
  let labels := define_labels (labels a) (length epochs) in
  time <- lift (time_vector (tmin a) (tmax a) (sfreq a)) ;;
  et <- lift (decimate (decim a) epochs time) ;;
  let plot_evoked_args :=
    {| pa_epochs := fst et; pa_time := snd et; pa_palette := this_palette;
       pa_ax := ax a; pa_figsize := figsize; pa_labels := labels;
       pa_unit := unit a; pa_ci := ci a |} in
  plotting_function <-
    get_plotting_function str_lower inst "plot_evoked" "plot_evoked"
      (backend a) ;;
  call "plot_evoked" (render plotting_function plot_evoked_args).

End PlotEvoked.

End PlotEvoked.

(** ** The detection layer ([systole.detection]) *)

Module Detection.
Import Py.

(** *** RR series *)

(** Modelled from the spec: the input representations that [input_type]
    selects ([systole.utils.input_conversion] is not among the sources):
    a peak vector, explicit beat indices, or RR intervals in milliseconds or
    in seconds. *)
Inductive rr_input : Type :=
| Peaks (peaks : list bool)
| PeaksIdx (idx : list Z)
| RrMs (rr : list Q)
| RrS (rr : list Q).

(** [np.where(peaks)[0]], as the test suite derives beat indices. *)
Fixpoint where_from (i : Z) (peaks : list bool) : list Z :=
  match peaks with
  | [] => []
  | true :: r => i :: where_from (i + 1) r
  | false :: r => where_from (i + 1) r
  end.

Definition where_ (peaks : list bool) : list Z := where_from 0 peaks.

(** [np.diff]: differences of successive items. *)
Fixpoint diff (l : list Z) : list Z :=
  match l with
  | a :: (b :: _) as r => (b - a) :: diff r
  | _ => []
  end.

(** The number of beats flagged in a peak vector. *)
Definition beat_count (peaks : list bool) : nat :=
  length (List.filter (fun b : bool => b) peaks).

(** Modelled from the spec: the RR series of an input, in milliseconds
    ("compute interval durations from successive beat indices, or take them
    directly for RR inputs"); the conversion function is not among the
    sources. *)
Definition rr_series (input : rr_input) : list Q :=
  match input with
  | Peaks p => map inject_Z (diff (where_ p))
  | PeaksIdx idx => map inject_Z (diff idx)
  | RrMs rr => rr
  | RrS rr => map (fun x => x * 1000)%Q rr
  end.

Definition Qltb (x y : Q) : bool := negb (Qle_bool y x).

(** The five categories, in the order the spec lists them. *)
Definition categories : list string :=
  ["short"; "long"; "ectopic"; "missed"; "extra"].

Section Classifier.

(** The empirically tuned parts, which the spec leaves open: the size of the
    rolling context, how a local reference duration is computed from it, the
    two ratio thresholds, and the tests for ectopic, missed and extra
    beats. *)
Variable context_size : nat.
Variable reference : list Q -> Q.
Variable short_ratio long_ratio : Q.
Variable ectopic_test : option Q -> Q -> option Q -> Q -> bool.
Variable missed_test : Q -> Q -> bool.
Variable extra_test : Q -> Q -> bool.

(** Modelled from the spec: the "short rolling context (previous
    intervals)" of the interval at position [i], at most [context_size] of
    them; [rr_artefacts] is not among the sources. *)
Definition context (rr : list Q) (i : nat) : list Q :=
  drop (i - context_size)%nat (take i rr).

Definition local_reference (rr : list Q) (i : nat) : Q :=
  reference (context rr i).

Definition neighbour (rr : list Q) (i : option nat) : option Q :=
  match i with
  | Some j => rr !! j
  | None => None
  end.

Definition previous_index (i : nat) : option nat :=
  match i with
  | O => None
  | S j => Some j
  end.

Record flags : Type := mk_flags {
  is_short : bool;
  is_long : bool;
  is_ectopic : bool;
  is_missed : bool;
  is_extra : bool
}.

Definition no_flags : flags :=
  {| is_short := false; is_long := false; is_ectopic := false;
     is_missed := false; is_extra := false |}.

(** Modelled from the spec: the classification of one interval against its
    local reference (short below the ratio threshold, long above it, ectopic
    by the test on the neighbours, missed near a multiple, extra near a
    fraction and never together with missed); [rr_artefacts] is not among
    the sources. *)
Definition classify (rr : list Q) (i : nat) (x : Q) : flags :=
  let ref := local_reference rr i in
  let missed := missed_test x ref in
  {| is_short := Qltb x (short_ratio * ref);
     is_long := Qltb (long_ratio * ref) x;
     is_ectopic :=
       ectopic_test (neighbour rr (previous_index i)) x (rr !! S i) ref;
     is_missed := missed;
     is_extra := extra_test x ref && negb missed |}.

(** Modelled from the spec: one set of flags per interval; with fewer than
    two intervals nothing is flagged. *)
Definition classify_all (rr : list Q) : list flags :=
  if Nat.ltb (length rr) 2 then map (fun _ => no_flags) rr
  else imap (classify rr) rr.

(** Modelled from the spec: [rr_artefacts(rr, input_type)], the classifier
    of [systole.detection], which is not among the sources: the input is
    converted to an RR series, every interval is classified, and the five
    boolean sequences are returned as a named mapping. *)
Definition rr_artefacts (input : rr_input) : list (string * list bool) :=
  let fs := classify_all (rr_series input) in
  [("short", map is_short fs); ("long", map is_long fs);
   ("ectopic", map is_ectopic fs); ("missed", map is_missed fs);
   ("extra", map is_extra fs)].

End Classifier.

(** *** Peak detection *)

(** The ECG methods the test suite runs. *)
Definition tested_methods : list string :=
  ["christov"; "engelse-zeelenberg"; "hamilton"; "pan-tompkins";
   "moving-average"].

(** Modelled from the spec: the Peak Vector, "boolean sequence, same length
    as Signal; true at the sample index of a detected beat"; the detectors
    are not among the sources. Indices are checked against the length of the
    signal, so one outside it flags nothing. *)
Definition peak_vector (n : nat) (candidates : list nat) : list bool :=
  fold_left (fun v i => <[i := true]> v) candidates (repeat false n).

(** The index of the largest sample among [best] and [candidates], the
    first one on ties. *)
Fixpoint argmax (signal : list Q) (best : nat) (candidates : list nat) : nat :=
  match candidates with
  | [] => best
  | j :: r =>
      match signal !! best, signal !! j with
      | Some b, Some x => argmax signal (if Qltb b x then j else best) r
      | _, _ => argmax signal best r
      end
  end.

(** Modelled from the spec: local-extremum refinement, "search a fixed-radius
    window and move the flag to the true local maximum". *)
Definition find_local_maximum (signal : list Q) (radius i : nat) : nat :=
  argmax signal i (seq (i - radius) (2 * radius + 1)).

(** How a peak vector reads as integers ([peaks > 1], [np.unique(peaks)]). *)
Definition as_int (b : bool) : Z := if b then 1 else 0.

(** The text of the error is not part of the contract. *)
Definition invalid_method_message : string :=
  "Invalid ECG peaks detection method provided".

Section Detector.

(** The parts the spec leaves open: the signal conditioner, the coarse
    detectors (each proposes candidate sample indices for a signal at a
    sampling frequency), keyed by algorithm selector for ECG, and the radius
    of the refinement window. *)
Variable clean : list Q -> list Q.
Variable ppg_detector : list Q -> Z -> list nat.
Variable ecg_detectors : list (string * (list Q -> Z -> list nat)).
Variable radius : Z -> nat.

Definition lookup_method (method : string)
  : option (list Q -> Z -> list nat) :=
  snd <$> List.find (fun d => String.eqb (fst d) method) ecg_detectors.

(** Modelled from the spec: the common part of the detectors, "the
    (optionally cleaned) signal and a Peak Vector of identical length". *)
Definition detect (detector : list Q -> Z -> list nat) (signal : list Q)
  (sfreq : Z) (find_local : bool) : list Q * list bool :=
  let cleaned := clean signal in
  let coarse := detector cleaned sfreq in
  let idx :=
    if find_local
    then map (find_local_maximum cleaned (radius sfreq)) coarse
    else coarse in
  (cleaned, peak_vector (length cleaned) idx).

(** Modelled from the spec: [ppg_peaks(signal, sfreq)] of
    [systole.detection], which is not among the sources. *)
Definition ppg_peaks (signal : list Q) (sfreq : Z)
  : exn + (list Q * list bool) :=
  inr (detect ppg_detector signal sfreq false).

(** Modelled from the spec: [ecg_peaks(signal, sfreq, method, find_local)]
    of [systole.detection], which is not among the sources: "unsupported
    algorithm selector fails with an invalid-argument error (no partial
    computation)". *)
Definition ecg_peaks (signal : list Q) (sfreq : Z) (method : string)
  (find_local : bool) : exn + (list Q * list bool) :=
  match lookup_method method with
  | None => inl (ValueError invalid_method_message)
  | Some detector => inr (detect detector signal sfreq find_local)
  end.

End Detector.

End Detection.

(** ** Sample inputs *)

Module Fixtures.
Import Py Np Utils PlotEvoked Detection.

(** An installation with an up-to-date bokeh and every back-end module. *)
Definition full_installation : installation :=
  {| bokeh_probe := Some true;
     module_exists := fun _ => true;
     has_attr := fun _ _ => true;
     backend_set_repr := "{'matplotlib', 'bokeh'}" |}.

Definition f (n : Z) : float := float_of_int n.

(** A time-domain summary with every metric the table reads. *)
Definition sample_time_df : dataframe :=
  [("MeanRR", f 800); ("MedianRR", f 800); ("MinRR", f 790);
   ("MaxRR", f 810); ("MeanBPM", f 75); ("MedianBPM", f 75);
   ("MinBPM", f 74); ("MaxBPM", f 76); ("SDNN", f 10); ("SDSD", f 10);
   ("RMSSD", f 10); ("nn50", f 0); ("pnn50", f 0)].

Definition sample_time_domain (rr : ndarray) (input_type : string)
  : exn + dataframe := inr sample_time_df.

(** Three RR intervals, in milliseconds. *)
Definition sample_rr : ndarray :=
  {| shape := [3%nat]; items := [f 800; f 810; f 790] |}.

(** A signal of four samples, and the same samples as a 2 x 2 array. *)
Definition sample_signal : ndarray :=
  {| shape := [4%nat]; items := [f 1; f 2; f 3; f 4] |}.

Definition sample_matrix : ndarray :=
  {| shape := [2%nat; 2%nat]; items := [f 1; f 2; f 3; f 4] |}.

(** Collaborators that answer with fixed values. *)
Definition sample_peaks (signal : ndarray) (sfreq : Z)
  : exn + (ndarray * ndarray) := inr (signal, signal).

Definition sample_heart_rate (x : ndarray) (kind unit input_type : string)
  (sfreq : option Z) : exn + (ndarray * ndarray) := inr (x, x).

Definition sample_to_epochs (signal triggers : option ndarray)
  (triggers_idx : option (list (list Z))) (reject : option ndarray)
  (sfreq : Z) (apply_baseline : option baseline_arg) (tmin tmax : float)
  : exn + (epochs_arg * list Z) := inr (EpochsList [], []).

Definition sample_render (fn : plotting_method) (args : plot_evoked_args)
  : exn + plot_evoked_args := inr args.

(** The defaults of the signature, except for the arguments given. *)
Definition call_with (signal rr : option ndarray) (modality : string)
  (palette : palette_arg) : arguments :=
  {| epochs := None; signal := signal; triggers := None;
     triggers_idx := None; rr := rr; input_type := "peaks"; reject := None;
     modality := modality; tmin := f (-1); tmax := f 10; sfreq := 1000;
     apply_baseline := Some (BaselinePoint (f 0)); decim := None;
     labels := None; unit := "bpm"; kind := "cubic"; ci := CiStr "sd";
     ax := None; figsize := None; backend := "matplotlib";
     palette := palette |}.

(** Two trials of five samples, and a time vector of five items. *)
Definition sample_epochs : list array2 :=
  [{| ncols := 5; rows := [[f 1; f 2; f 3; f 4; f 5];
                           [f 6; f 7; f 8; f 9; f 10]] |}].

Definition sample_time : list float := [f 0; f 1; f 2; f 3; f 4].

Definition sample_plot_evoked : arguments -> M plot_evoked_args :=
  plot_evoked Py.lower full_installation [] sample_peaks sample_peaks
    sample_heart_rate sample_to_epochs plot_evoked_args sample_render.

(** Two conditions, of two trials and of one trial, four samples each. *)
Definition two_conditions : list array2 :=
  [{| ncols := 4; rows := [[f 61; f 62; f 63; f 64];
                           [f 71; f 72; f 73; f 74]] |};
   {| ncols := 4; rows := [[f 81; f 82; f 83; f 84]] |}].

(** A classifier instance: the reference is the mean of the context (one
    second when there is none), short below 0.8 and long above 1.2 times the
    reference, missed from twice the reference, extra up to half of it, and
    ectopic when a short interval comes next to a long one. *)
Definition mean (l : list Q) : Q :=
  match l with
  | [] => 1000
  | _ => fold_right Qplus 0 l / inject_Z (Z.of_nat (length l))
  end%Q.

Definition sample_ectopic (prev : option Q) (x : Q) (next : option Q) (ref : Q)
  : bool :=
  match prev, next with
  | Some p, Some n =>
      (Qltb x (0.8 * ref) && Qltb (1.2 * ref) n)
      || (Qltb (1.2 * ref) x && Qltb p (0.8 * ref))
  | _, _ => false
  end%Q.

Definition sample_rr_artefacts : rr_input -> list (string * list bool) :=
  rr_artefacts 3 mean 0.8%Q 1.2%Q sample_ectopic
    (fun x ref => Qle_bool (2 * ref) x)%Q
    (fun x ref => Qle_bool x (0.5 * ref))%Q.

(** A peak vector with one beat every [period] samples. *)
Definition regular_peaks (beats period : nat) : list bool :=
  concat (repeat (true :: repeat false (period - 1)) beats).

(** A detector that proposes every sample above a threshold, and a table
    that offers it under each tested method name. *)
Definition above (threshold : Q) (signal : list Q) (sfreq : Z) : list nat :=
  map fst (List.filter (fun p => Qltb threshold (snd p))
             (imap (fun i x => (i, x)) signal)).

Definition sample_detectors : list (string * (list Q -> Z -> list nat)) :=
  map (fun m => (m, above 1%Q)) tested_methods.

Definition sample_ecg_peaks
  : list Q -> Z -> string -> bool -> exn + (list Q * list bool) :=
  ecg_peaks (fun s => s) sample_detectors (fun _ => 1%nat).

Definition sample_ecg : list Q := [0; 2; 3; 0; 0; 4; 1; 0]%Q.

End Fixtures.

(** ** The calls a run of [plot_evoked] is expected to make *)

Module Pipeline.
Import Py Np Utils PlotEvoked.

(** [a] with other values for [rr] and [input_type]. *)
Definition with_rr (a : arguments) (rr' : option ndarray)
  (input_type' : string) : arguments :=
  {| epochs := epochs a; signal := signal a; triggers := triggers a;
     triggers_idx := triggers_idx a; rr := rr'; input_type := input_type';
     reject := reject a; modality := modality a; tmin := tmin a;
     tmax := tmax a; sfreq := sfreq a; apply_baseline := apply_baseline a;
     decim := decim a; labels := labels a; unit := unit a; kind := kind a;
     ci := ci a; ax := ax a; figsize := figsize a; backend := backend a;
     palette := palette a |}.

(** A call that passes epochs, a decimation factor and labels, with a window
    of one second at 4 Hz and the defaults for the rest. *)
Definition with_epochs (e : epochs_arg) (decim' : option Z)
  (labels' : option labels_arg) : arguments :=
  {| epochs := Some e; signal := None; triggers := None;
     triggers_idx := None; rr := None; input_type := "peaks"; reject := None;
     modality := "ppg"; tmin := Fixtures.f 0; tmax := Fixtures.f 1;
     sfreq := 4; apply_baseline := Some (BaselinePoint (Fixtures.f 0));
     decim := decim'; labels := labels'; unit := "bpm"; kind := "cubic";
     ci := CiStr "sd"; ax := None; figsize := None; backend := "matplotlib";
     palette := PaletteNone |}.

(** [a] with another backend. *)
Definition with_backend (a : arguments) (backend' : string) : arguments :=
  {| epochs := epochs a; signal := signal a; triggers := triggers a;
     triggers_idx := triggers_idx a; rr := rr a; input_type := input_type a;
     reject := reject a; modality := modality a; tmin := tmin a;
     tmax := tmax a; sfreq := sfreq a; apply_baseline := apply_baseline a;
     decim := decim a; labels := labels a; unit := unit a; kind := kind a;
     ci := ci a; ax := ax a; figsize := figsize a; backend := backend';
     palette := palette a |}.

(** [a] with another epoch window and sampling frequency. *)
Definition with_window (a : arguments) (tmin' tmax' : float) (sfreq' : Z)
  : arguments :=
  {| epochs := epochs a; signal := signal a; triggers := triggers a;
     triggers_idx := triggers_idx a; rr := rr a; input_type := input_type a;
     reject := reject a; modality := modality a; tmin := tmin';
     tmax := tmax'; sfreq := sfreq'; apply_baseline := apply_baseline a;
     decim := decim a; labels := labels a; unit := unit a; kind := kind a;
     ci := ci a; ax := ax a; figsize := figsize a; backend := backend a;
     palette := palette a |}.

(** The calls of the heart-rate stage: a detector and the conversion for a
    signal, the conversion alone for [rr], nothing without either. *)
Definition rate_events (a : arguments) : list event :=
  match signal a with
  | Some _ =>
      if String.eqb (modality a) "ppg"
      then [Called "ppg_peaks"; Called "heart_rate"]
      else if String.eqb (modality a) "ecg"
      then [Called "ecg_peaks"; Called "heart_rate"]
      else []
  | None =>
      match rr a with
      | Some _ => [Called "heart_rate"]
      | None => []
      end
  end.

Definition epoching_events (a : arguments) : list event :=
  match epochs a with
  | Some _ => []
  | None => [Called "to_epochs"]
  end.

(** The imports of [get_plotting_function] for a resolved backend. *)
Definition dispatch_events (resolved : option string) : list event :=
  match resolved with
  | None => []
  | Some b =>
      (if String.eqb b "bokeh" then [Imported "bokeh"] else [])
        ++ [Imported (backend_module b "plot_evoked")]
  end%list.

(** Every event of a run that goes through, in order. *)
Definition pipeline (str_lower : string -> string) (a : arguments)
  : list event :=
  (rate_events a ++ epoching_events a
     ++ dispatch_events (_backend !! str_lower (backend a))
     ++ [Called "plot_evoked"])%list.

(** The trace of [m] follows [l]: it is a prefix of [l], and all of [l] when
    [m] returns. *)
Definition follows {A} (m : M A) (l : list event) : Prop :=
  trace m `prefix_of` l /\ (forall x, returns m x -> trace m = l).

(** The metrics each table reads. *)
Definition time_metrics : list string :=
  ["MeanRR"; "MedianRR"; "MinRR"; "MaxRR"; "MeanBPM"; "MedianBPM"; "MinBPM";
   "MaxBPM"; "SDNN"; "SDSD"; "RMSSD"; "nn50"; "pnn50"].

Definition frequency_metrics : list string :=
  ["vlf_peak"; "lf_peak"; "hf_peak"; "vlf_power"; "lf_power"; "hf_power";
   "total_power"; "lf_hf_ratio"; "vlf_power_per"; "lf_power_per";
   "hf_power_per"; "lf_power_nu"; "hf_power_nu"].

Definition nonlinear_metrics : list string :=
  ["SD1"; "SD2"; "l_mean"; "l_max"; "recurrence_rate"; "determinism_rate";
   "shannon_entropy"].

(** What a lookup raises when no row has the metric. *)
Definition missing_metric : exn :=
  IndexError "single positional indexer is out-of-bounds".

(** The columns of a table. *)
Definition data_of (t : table) : table_data :=
  match t with
  | BokehColumn data _ _ _ => data
  | Tabulate data _ _ _ => data
  end.

End Pipeline.

(** ** Properties of [systole/plots/utils.py] *)

Import Py Np Utils.

Lemma backend_lookup_cases (k : string) :
  (k = "mpl" /\ _backend !! k = Some "matplotlib") \/
  (k = "bokeh" /\ _backend !! k = Some "bokeh") \/
  (k = "matplotlib" /\ _backend !! k = Some "matplotlib") \/
  (k <> "mpl" /\ k <> "bokeh" /\ k <> "matplotlib" /\ _backend !! k = None).
Proof.
  unfold _backend.
  destruct (decide (k = "mpl")) as [->|H1]; [left; split; [done|] |].
  { by rewrite lookup_insert_eq. }
  destruct (decide (k = "bokeh")) as [->|H2]; [right; left; split; [done|] |].
  { rewrite lookup_insert_ne by done. by rewrite lookup_insert_eq. }
  destruct (decide (k = "matplotlib")) as [->|H3].
  { right; right; left; split; [done|].
    do 2 (rewrite lookup_insert_ne by done). by rewrite lookup_insert_eq. }
  right; right; right. repeat split; try done.
  do 3 (rewrite lookup_insert_ne by done). apply lookup_empty.
Qed.

(** An unknown selector raises before anything is imported, and the message
    carries the (lower-cased) selector. *)
Lemma get_plotting_function_unknown (str_lower : string -> string)
  (inst : installation) (plot_name plot_module backend : string) :
  _backend !! str_lower backend = None ->
  get_plotting_function str_lower inst plot_name plot_module backend =
    ([], inl (KeyError ("Backend " ++ str_lower backend ++
        " is not implemented. Try backend in " ++ backend_set_repr inst))).
Proof.
  intros H. unfold get_plotting_function, resolve_backend. rewrite H.
  reflexivity.
Qed.

Lemma get_plotting_function_known (str_lower : string -> string)
  (inst : installation) (plot_name plot_module backend b : string) :
  _backend !! str_lower backend = Some b ->
  get_plotting_function str_lower inst plot_name plot_module backend =
    (_ <- check_bokeh inst b ;;
     module <- import_module inst (backend_module b plot_module) ;;
     getattr inst module plot_name).
Proof.
  intros H. unfold get_plotting_function, resolve_backend. rewrite H.
  unfold bind at 1. simpl.
  destruct (_ <- check_bokeh inst b ;; _) as [log r]. reflexivity.
Qed.

(** Once the backend is resolved, at least one import is attempted and no
    [KeyError] can come out. *)
Lemma dispatch_imports (inst : installation) (plot_name plot_module b : string) :
  let m := (_ <- check_bokeh inst b ;;
            module <- import_module inst (backend_module b plot_module) ;;
            getattr inst module plot_name) in
  (exists name rest, trace m = Imported name :: rest) /\
  (forall msg, ~ raises m (KeyError msg)).
Proof.
  unfold check_bokeh, import_module, getattr, raises, outcome, trace.
  destruct (String.eqb b "bokeh"); [destruct (bokeh_probe inst) as [[]|] |];
    simpl;
    repeat match goal with
    | |- context [module_exists ?i ?n] => destruct (module_exists i n); simpl
    | |- context [has_attr ?i ?m ?n] => destruct (has_attr i m n); simpl
    end;
    (split; [eauto | intros msg; discriminate]).
Qed.

(** C9: [get_plotting_function] lower-cases the selector. When the
    lower-case form is "mpl", "matplotlib" or "bokeh" the selector resolves
    to "matplotlib" or "bokeh" ("mpl" being an alias of "matplotlib") and the
    call goes on to import the back-end module, never raising [KeyError];
    for every other string it raises [KeyError] (and imports nothing). *)
Theorem get_plotting_function_selector (str_lower : string -> string)
  (inst : installation) (plot_name plot_module backend : string) :
  let call := get_plotting_function str_lower inst plot_name plot_module
                backend in
  (exists b,
     In (str_lower backend) ["mpl"; "matplotlib"; "bokeh"] /\
     b = (if String.eqb (str_lower backend) "bokeh"
          then "bokeh" else "matplotlib") /\
     outcome (resolve_backend str_lower inst backend) = inr b /\
     call = (_ <- check_bokeh inst b ;;
             module <- import_module inst (backend_module b plot_module) ;;
             getattr inst module plot_name) /\
     (exists name rest, trace call = Imported name :: rest) /\
     (forall msg, ~ raises call (KeyError msg)))
  \/
  (~ In (str_lower backend) ["mpl"; "matplotlib"; "bokeh"] /\
   exists msg, call = ([], inl (KeyError msg))).
Proof.
  intros call. subst call.
  destruct (backend_lookup_cases (str_lower backend))
    as [[E H]|[[E H]|[[E H]|(N1 & N2 & N3 & H)]]].
  1-3: left;
    match type of H with _ = Some ?r => exists r end;
    rewrite (get_plotting_function_known _ _ _ _ _ _ H);
    unfold resolve_backend; rewrite H; rewrite E;
    (split; [cbn; tauto|]); (split; [reflexivity|]);
    (split; [reflexivity|]); (split; [reflexivity|]);
    apply dispatch_imports.
  right. split.
  - simpl. intros [?|[?|[?|[]]]]; congruence.
  - eexists. apply get_plotting_function_unknown. exact H.
Qed.

Lemma bind_ret_l {A B} (x : A) (k : A -> M B) : (y <- ret x ;; k y) = k x.
Proof. unfold bind, ret. destruct (k x). reflexivity. Qed.

Lemma bind_raise_l {A B} (e : exn) (k : A -> M B) :
  (y <- raise e ;; k y) = raise e.
Proof. reflexivity. Qed.

Lemma trace_bind_nil {A B} (m : M A) (k : A -> M B) :
  trace m = [] -> (forall x, trace (k x) = []) -> trace (x <- m ;; k x) = [].
Proof.
  destruct m as [log [e|x]]; simpl; intros Hm Hk; subst; [reflexivity|].
  specialize (Hk x). destruct (k x). simpl in *. by subst.
Qed.

Lemma trace_bind_call {A B} (name : string) (r : exn + A) (k : A -> M B) :
  (forall x, trace (k x) = []) ->
  trace (x <- call name r ;; k x) = [Called name].
Proof.
  intros H. destruct r as [e|x]; [reflexivity|].
  specialize (H x). unfold call, bind. destruct (k x). simpl in *.
  by subst.
Qed.

Lemma bind_never_returns {A B} (m : M A) (k : A -> M B) :
  (forall x t, ~ returns (k x) t) -> forall t, ~ returns (x <- m ;; k x) t.
Proof.
  intros H t. destruct m as [log [e|x]]; unfold returns, outcome, bind.
  - discriminate.
  - specialize (H x t). destruct (k x). exact H.
Qed.

(** Reading the dataframe and building the table call no collaborator. *)
Lemma values_trace (df : dataframe) (l : list (option string)) :
  trace (values df l) = [].
Proof.
  induction l as [|[name|] l IH]; [reflexivity| |]; simpl.
  - unfold metric. destruct (List.find _ df); simpl; [|reflexivity].
    unfold trace in IH. destruct (values df l) as [log [e|cs]];
      simpl in *; subst; reflexivity.
  - unfold trace in IH. destruct (values df l) as [log [e|cs]];
      simpl in *; subst; reflexivity.
Qed.

Lemma render_table_trace (backend : string) (data : table_data)
  (columns : list (string * string)) (width height : option Z) :
  trace (render_table backend data columns width height) = [].
Proof. unfold render_table. repeat case_match; reflexivity. Qed.

(** With a summary dataframe the prologue returns it as it is, whatever the
    other arguments and whatever the summary function is. *)
Lemma summary_given (name : string)
  (domain : ndarray -> string -> exn + dataframe)
  (rr : option ndarray) (input_type : option string) (df : dataframe) :
  summary name domain rr input_type (Some df) = ret df.
Proof. reflexivity. Qed.

Lemma summary_missing (name : string)
  (domain : ndarray -> string -> exn + dataframe)
  (input_type : option string) :
  summary name domain None input_type None = raise (ValueError no_rr_message).
Proof. reflexivity. Qed.

(** C10: in [time_table], [frequency_table] and [nonlinear_table], a call
    without summary dataframe and without [rr] raises the [ValueError] that
    asks for an RR time series (nothing is computed); with a summary
    dataframe the result does not depend on [rr], on [input_type] or on the
    summary function, which is never called. *)
Theorem tables_rr_or_summary
  (time_domain frequency_domain nonlinear_domain
     : ndarray -> string -> exn + dataframe)
  (input_type : option string) (backend : string) (width height : option Z) :
  (time_table time_domain None input_type None backend width height
     = ([], inl (ValueError no_rr_message)) /\
   frequency_table frequency_domain None input_type None backend width height
     = ([], inl (ValueError no_rr_message)) /\
   nonlinear_table nonlinear_domain None input_type None backend width height
     = ([], inl (ValueError no_rr_message)))
  /\
  (forall (df : dataframe) (rr rr' : option ndarray)
          (input_type' : option string)
          (other : ndarray -> string -> exn + dataframe),
     (time_table time_domain rr input_type (Some df) backend width height
        = time_table other rr' input_type' (Some df) backend width height /\
      ~ In (Called "time_domain")
           (trace (time_table time_domain rr input_type (Some df) backend
                     width height))) /\
     (frequency_table frequency_domain rr input_type (Some df) backend width
        height
        = frequency_table other rr' input_type' (Some df) backend width
            height /\
      ~ In (Called "frequency_domain")
           (trace (frequency_table frequency_domain rr input_type (Some df)
                     backend width height))) /\
     (nonlinear_table nonlinear_domain rr input_type (Some df) backend width
        height
        = nonlinear_table other rr' input_type' (Some df) backend width
            height /\
      ~ In (Called "nonlinear_domain")
           (trace (nonlinear_table nonlinear_domain rr input_type (Some df)
                     backend width height)))).
Proof.
  split; [repeat split; reflexivity|].
  intros df rr rr' input_type' other.
  repeat split; try reflexivity.
  all: unfold time_table, frequency_table, nonlinear_table;
    rewrite summary_given, bind_ret_l; intros Hin;
    match type of Hin with
    | In _ (trace ?m) =>
        assert (Ht : trace m = []); [|rewrite Ht in Hin; exact Hin]
    end;
    repeat (apply trace_bind_nil; [apply values_trace | intros]);
    apply render_table_trace.
Qed.

Lemma render_table_unknown (backend : string) (data : table_data)
  (columns : list (string * string)) (width height : option Z) :
  backend <> "bokeh" -> backend <> "tabulate" ->
  render_table backend data columns width height
    = raise (UnboundLocalError "table").
Proof.
  intros H1 H2. unfold render_table.
  destruct (String.eqb_spec backend "bokeh"); [done|].
  destruct (String.eqb_spec backend "tabulate"); [done|]. reflexivity.
Qed.

(** With a backend other than "bokeh" and "tabulate", [time_table] computes
    the summary first and never returns a table. *)
Lemma time_table_unknown_backend
  (time_domain : ndarray -> string -> exn + dataframe) (rr : ndarray)
  (input_type backend : string) (width height : option Z) :
  backend <> "bokeh" -> backend <> "tabulate" ->
  let m := time_table time_domain (Some rr) (Some input_type) None backend
             width height in
  trace m = [Called "time_domain"] /\ (forall t, ~ returns m t).
Proof.
  intros H1 H2 m. subst m. unfold time_table, summary. split.
  - apply trace_bind_call. intros df.
    apply trace_bind_nil; [apply values_trace|].
    intros cs. apply render_table_trace.
  - apply bind_never_returns. intros df.
    apply bind_never_returns. intros cs t.
    rewrite render_table_unknown by assumption. discriminate.
Qed.

(** C4: for the selector "plotly", [get_plotting_function] raises its
    [KeyError], which names the selector, before it imports anything; but
    [time_table] first calls [time_domain] and reads the whole summary, and
    only fails when it returns the unbound [table], with an
    [UnboundLocalError]. *)
Theorem unknown_backend_plotly :
  get_plotting_function Py.lower Fixtures.full_installation "plot_evoked"
    "plot_evoked" "Plotly"
    = ([], inl (KeyError
        "Backend plotly is not implemented. Try backend in {'matplotlib', 'bokeh'}"))
  /\
  time_table Fixtures.sample_time_domain (Some Fixtures.sample_rr)
    (Some "rr_ms") None "plotly" (Some 600) (Some 300)
    = ([Called "time_domain"], inl (UnboundLocalError "table")).
Proof. split; vm_compute; reflexivity. Qed.

(** ** Properties of [systole/plots/plot_evoked.py] *)

Import PlotEvoked.

(** *** Slicing with a step *)

Lemma every_nth_from_lookup {A} (step' : nat) (xs : list A) :
  forall skip j : nat,
    every_nth_from skip step' xs !! j = xs !! (skip + j * S step')%nat.
Proof.
  induction xs as [|x xs IH]; intros skip j; [reflexivity|].
  destruct skip as [|k]; simpl.
  - destruct j as [|j]; [reflexivity|]. simpl. apply IH.
  - apply IH.
Qed.

Lemma every_nth_from_length {A} (step' : nat) (xs : list A) :
  forall skip : nat,
    length (every_nth_from skip step' xs) =
      if Nat.leb (length xs) skip then O
      else S ((length xs - skip - 1) / S step')%nat.
Proof.
  induction xs as [|x xs IH]; intros skip; [reflexivity|].
  destruct skip as [|k]; simpl every_nth_from; simpl length.
  - rewrite IH. f_equal.
    destruct (Nat.leb_spec (length xs) step') as [Hle|Hlt].
    + rewrite Nat.div_small; lia.
    + set (m := (length xs - step' - 1)%nat).
      assert (Hn : (S (length xs) - 0 - 1)%nat = (m + 1 * S step')%nat)
        by lia.
      rewrite Hn, Nat.div_add by lia. lia.
  - rewrite IH. change (Nat.leb (S (length xs)) (S k))
      with (Nat.leb (length xs) k).
    destruct (Nat.leb (length xs) k); [reflexivity|].
    do 2 f_equal.
Qed.

Lemma stride_lookup {A} (step : positive) (xs : list A) (j : nat) :
  stride step xs !! j = xs !! (j * Pos.to_nat step)%nat.
Proof.
  unfold stride. rewrite every_nth_from_lookup. f_equal.
  pose proof (Pos2Nat.is_pos step). simpl. f_equal. lia.
Qed.

Lemma stride_length {A} (step : positive) (xs : list A) :
  length (stride step xs) =
    ((length xs + Pos.to_nat step - 1) / Pos.to_nat step)%nat.
Proof.
  unfold stride. rewrite every_nth_from_length.
  pose proof (Pos2Nat.is_pos step) as Hpos.
  replace (S (Nat.pred (Pos.to_nat step))) with (Pos.to_nat step) by lia.
  destruct (Nat.leb_spec (length xs) 0) as [Hle|Hlt].
  - replace (length xs) with O by lia. rewrite Nat.div_small; lia.
  - set (m := (length xs - 0 - 1)%nat).
    assert (Hn : (length xs + Pos.to_nat step - 1)%nat
                 = (m + 1 * Pos.to_nat step)%nat) by lia.
    rewrite Hn, Nat.div_add by lia. lia.
Qed.

Lemma decimate_epochs_pos (step : positive) (epochs : list array2) :
  decimate_epochs (Z.pos step) epochs =
    inr (map (fun a => {| ncols := length (stride step (seq 0 (ncols a)));
                          rows := map (stride step) (rows a) |}) epochs).
Proof.
  induction epochs as [|a r IH]; [reflexivity|].
  cbn [decimate_epochs slice_columns]. rewrite IH. reflexivity.
Qed.

Lemma stride_same_length {A B} (step : positive) (xs : list A) (ys : list B) :
  length xs = length ys -> length (stride step xs) = length (stride step ys).
Proof. intros H. rewrite !stride_length, H. reflexivity. Qed.

(** C7 (as amended): for a positive factor N, decimation keeps, in every
    row of every condition's array, exactly the columns 0, N, 2N, ... and, in
    the time vector, the items 0, N, 2N, ..., whatever the shapes; an array
    that had as many columns as the time vector had items still has
    afterwards, and an array whose rows all had its width still is one. *)
Theorem decimation_keeps_every_nth (epochs : list array2) (time : list float)
  (N : positive) :
  exists epochs' time',
    decimate (Some (Z.pos N)) epochs time = inr (epochs', time') /\
    (forall j : nat, time' !! j = time !! (j * Pos.to_nat N)%nat) /\
    length time' = ((length time + Pos.to_nat N - 1) / Pos.to_nat N)%nat /\
    Forall2 (fun a a' =>
      ncols a' = ((ncols a + Pos.to_nat N - 1) / Pos.to_nat N)%nat /\
      Forall2 (fun row row' : list float =>
                 forall j : nat, row' !! j = row !! (j * Pos.to_nat N)%nat)
              (rows a) (rows a') /\
      (well_formed a -> well_formed a') /\
      (ncols a = length time -> ncols a' = length time')) epochs epochs'.
Proof.
  unfold decimate. rewrite decimate_epochs_pos. simpl.
  eexists _, _. split; [reflexivity|].
  split; [intros j; apply stride_lookup|].
  split; [apply stride_length|].
  induction epochs as [|a r IH]; [constructor|].
  simpl. constructor; [|exact IH].
  simpl. split; [rewrite stride_length, length_seq; reflexivity|].
  split.
  { clear. induction (rows a) as [|row rs IHr]; simpl; constructor;
      [intros j; apply stride_lookup | exact IHr]. }
  split.
  { unfold well_formed. simpl. intros Hwa. apply Forall_map.
    eapply Forall_impl; [exact Hwa|]. intros row Hrow. simpl.
    apply stride_same_length. rewrite length_seq. exact Hrow. }
  intros Ha. apply stride_same_length. rewrite length_seq. exact Ha.
Qed.

Lemma decimation_keeps_every_nth_witness :
  exists epochs' time',
    decimate (Some 2) Fixtures.sample_epochs Fixtures.sample_time
      = inr (epochs', time') /\
    length time' = 3%nat /\
    Forall (fun a' => ncols a' = 3%nat /\ well_formed a') epochs'.
Proof.
  destruct (decimation_keeps_every_nth Fixtures.sample_epochs
              Fixtures.sample_time 2) as (e & t & Hd & _ & Hlen & Hall).
  exists e, t. split; [exact Hd|]. split; [exact Hlen|].
  unfold Fixtures.sample_epochs in Hall.
  inversion Hall as [|a a' l l' (_ & _ & Hw & Hn) Hrest]; subst.
  inversion Hrest; subst.
  constructor; [|constructor]. split.
  - rewrite Hn by reflexivity. exact Hlen.
  - apply Hw. repeat constructor.
Defined.

(** C7 (as stated) fails when the widths differ before decimation, as they
    do with the time vector that [plot_evoked] builds for [tmin = -0.8],
    [tmax = 0.4], [sfreq = 10]: an array of the 12 samples of the window and
    a time vector of 13 items become 6 columns and 7 items with
    [decim = 2]. *)
Lemma decimation_alignment_counterexample :
  let epochs :=
    [{| ncols := 12; rows := [repeat (float_of_int 0) 12] |}] in
  exists time epochs' time',
    window_length (decimal (-8) 1) (decimal 4 1) 10 = inr 12 /\
    time_vector (decimal (-8) 1) (decimal 4 1) 10 = inr time /\
    Forall well_formed epochs /\
    decimate (Some 2) epochs time = inr (epochs', time') /\
    map ncols epochs' = [6%nat] /\
    length time' = 7%nat /\
    ~ Forall (fun a' => ncols a' = length time') epochs'.
Proof.
  simpl. eexists _, _, _.
  split; [vm_compute; reflexivity|].
  split; [vm_compute; reflexivity|].
  split; [repeat constructor|].
  split; [vm_compute; reflexivity|].
  split; [reflexivity|]. split; [reflexivity|].
  intros H. inversion H as [|? ? Hn _]. simpl in Hn. discriminate Hn.
Qed.

(** *** Argument checks of [plot_evoked] *)

Section PlotEvokedChecks.

Variable str_lower : string -> string.
Variable inst : installation.
Variable deep : list string.
Variable ppg_peaks : ndarray -> Z -> exn + (ndarray * ndarray).
Variable ecg_peaks : ndarray -> Z -> exn + (ndarray * ndarray).
Variable heart_rate :
  ndarray -> string -> string -> string -> option Z ->
  exn + (ndarray * ndarray).
Variable to_epochs :
  option ndarray -> option ndarray -> option (list (list Z)) ->
  option ndarray -> Z -> option baseline_arg -> float -> float ->
  exn + (epochs_arg * list Z).
Variable figure : Type.
Variable render : plotting_method -> plot_evoked_args -> exn + figure.

Let run : arguments -> M figure :=
  plot_evoked str_lower inst deep ppg_peaks ecg_peaks heart_rate to_epochs
    figure render.

(** A palette that is neither [None] nor a list ends the call first. *)
Lemma plot_evoked_invalid_palette (a : arguments) :
  palette a = PaletteOther ->
  run a = ([], inl (ValueError palette_message)).
Proof. intros H. unfold run, plot_evoked. rewrite H. reflexivity. Qed.

Lemma plot_evoked_after_palette (a : arguments) :
  palette a <> PaletteOther ->
  forall e, outcome (instantaneous_rate ppg_peaks ecg_peaks heart_rate a)
              = inl e ->
  run a = (trace (instantaneous_rate ppg_peaks ecg_peaks heart_rate a), inl e).
Proof.
  intros Hp e He. unfold run, plot_evoked.
  destruct (palette a); [| |done]; simpl define_palette;
    rewrite bind_ret_l;
    destruct (instantaneous_rate ppg_peaks ecg_peaks heart_rate a)
      as [log [e'|x]]; simpl in *; congruence.
Qed.

(** A signal of at most one dimension with a modality other than "ppg" and
    "ecg": no detector is called and [peaks] is read unbound. *)
Lemma plot_evoked_unknown_modality (a : arguments) (s : ndarray) :
  palette a <> PaletteOther ->
  signal a = Some s -> (ndim s <= 1)%nat ->
  modality a <> "ppg" -> modality a <> "ecg" ->
  run a = ([], inl (UnboundLocalError "peaks")).
Proof.
  intros Hp Hs Hn Hppg Hecg.
  rewrite (plot_evoked_after_palette a Hp (UnboundLocalError "peaks"));
    unfold instantaneous_rate, rate_of_signal; rewrite Hs;
    destruct (Nat.ltb_spec 1 (ndim s)); try lia;
    destruct (String.eqb_spec (modality a) "ppg"); try done;
    destruct (String.eqb_spec (modality a) "ecg"); try done.
Qed.

(** C6 (as amended): when the palette is [None] or a list, a [signal] of
    more than one dimension, or, without [signal], an [rr] of more than one
    dimension, makes [plot_evoked] raise the [ValueError] about the shape
    before any collaborator (peak detection, heart-rate conversion,
    epoching) is called. *)
Theorem plot_evoked_shape_error (a : arguments) (x : ndarray) :
  palette a <> PaletteOther ->
  (1 < ndim x)%nat ->
  (signal a = Some x ->
     run a = ([], inl (ValueError signal_shape_message))) /\
  (signal a = None -> rr a = Some x ->
     run a = ([], inl (ValueError rr_shape_message))).
Proof.
  intros Hp Hn.
  assert (Hlt : Nat.ltb 1 (ndim x) = true) by (apply Nat.ltb_lt; exact Hn).
  split.
  - intros Hs.
    rewrite (plot_evoked_after_palette a Hp (ValueError signal_shape_message));
      unfold instantaneous_rate, rate_of_signal; rewrite Hs, Hlt; reflexivity.
  - intros Hs Hr.
    rewrite (plot_evoked_after_palette a Hp (ValueError rr_shape_message));
      unfold instantaneous_rate, rate_of_rr; rewrite Hs, Hr, Hlt; reflexivity.
Qed.

End PlotEvokedChecks.

Lemma plot_evoked_shape_error_witness :
  Fixtures.sample_plot_evoked
    (Fixtures.call_with (Some Fixtures.sample_matrix) None "ppg" PaletteNone)
    = ([], inl (ValueError signal_shape_message)) /\
  Fixtures.sample_plot_evoked
    (Fixtures.call_with None (Some Fixtures.sample_matrix) "ppg"
       (PaletteList ["red"]))
    = ([], inl (ValueError rr_shape_message)).
Proof.
  split.
  - apply (plot_evoked_shape_error Py.lower Fixtures.full_installation []
             Fixtures.sample_peaks Fixtures.sample_peaks
             Fixtures.sample_heart_rate Fixtures.sample_to_epochs
             plot_evoked_args Fixtures.sample_render
             (Fixtures.call_with (Some Fixtures.sample_matrix) None "ppg"
                PaletteNone) Fixtures.sample_matrix);
      [simpl; discriminate | unfold ndim; simpl; lia | reflexivity].
  - apply (plot_evoked_shape_error Py.lower Fixtures.full_installation []
             Fixtures.sample_peaks Fixtures.sample_peaks
             Fixtures.sample_heart_rate Fixtures.sample_to_epochs
             plot_evoked_args Fixtures.sample_render
             (Fixtures.call_with None (Some Fixtures.sample_matrix) "ppg"
                (PaletteList ["red"])) Fixtures.sample_matrix);
      [simpl; discriminate | unfold ndim; simpl; lia | reflexivity
      | reflexivity].
Defined.

(** C6 (as stated) fails when the palette is invalid: a 2 x 2 signal with a
    palette that is not a list raises the palette error, not the shape
    error. *)
Lemma plot_evoked_shape_error_counterexample :
  let a := Fixtures.call_with (Some Fixtures.sample_matrix) None "ppg"
             PaletteOther in
  signal a = Some Fixtures.sample_matrix /\
  (1 < ndim Fixtures.sample_matrix)%nat /\
  Fixtures.sample_plot_evoked a
    = ([], inl (ValueError palette_message)) /\
  Fixtures.sample_plot_evoked a <> ([], inl (ValueError signal_shape_message)).
Proof.
  simpl. split; [reflexivity|]. split; [unfold ndim; simpl; lia|].
  split; [reflexivity|]. vm_compute. discriminate.
Qed.

(** C5: a one-dimensional signal with the modality "eeg" is not rejected by
    any check: no detector is called, and the call fails when the unbound
    [peaks] is read for the heart-rate conversion. *)
Theorem plot_evoked_modality_eeg :
  Fixtures.sample_plot_evoked
    (Fixtures.call_with (Some Fixtures.sample_signal) None "eeg" PaletteNone)
    = ([], inl (UnboundLocalError "peaks")).
Proof. vm_compute. reflexivity. Qed.

(** *** The time vector *)

Lemma arange_items (start stop step : float) (n : Z) :
  arange_length start stop step = inr n ->
  exists items, arange start stop step = inr items /\
                Z.of_nat (length items) = n.
Proof.
  intros H. unfold arange. rewrite H. eexists. split; [reflexivity|].
  rewrite length_map, length_seq. apply Z2Nat.id.
  unfold arange_length in H. destruct (ceil _); [discriminate|].
  injection H as <-. lia.
Qed.

(** The time vector has as many items as [time_vector_length] says. *)
Lemma time_vector_items (tmin tmax : float) (sfreq n : Z) :
  time_vector_length tmin tmax sfreq = inr n ->
  exists time, time_vector tmin tmax sfreq = inr time /\
               Z.of_nat (length time) = n.
Proof.
  unfold time_vector_length, time_vector.
  destruct (round (fmul tmin _)) as [?|first]; [discriminate|].
  destruct (int_truediv first sfreq) as [?|start]; [discriminate|].
  destruct (round (fmul tmax _)) as [?|last]; [discriminate|].
  destruct (int_truediv last sfreq) as [?|stop]; [discriminate|].
  destruct (int_truediv 1 sfreq) as [?|step]; [discriminate|].
  apply arange_items.
Qed.

Ltac time_vector_at :=
  split; [vm_compute; reflexivity
         | apply time_vector_items; vm_compute; reflexivity].

(** C8: with [tmin = -0.8], [tmax = 0.4] and [sfreq = 10] the window has
    [round(4.0) - round(-8.0) = 12] samples but the time vector has 13 items,
    because [(0.4 - -0.8) / 0.1] is slightly above 12 in binary64; likewise
    with [tmin = -1.6], [tmax = 0.1] and the default [sfreq = 1000]: 1700
    samples, 1701 items. *)
Theorem time_vector_extra_item :
  (window_length (decimal (-8) 1) (decimal 4 1) 10 = inr 12 /\
   exists time,
     time_vector (decimal (-8) 1) (decimal 4 1) 10 = inr time /\
     Z.of_nat (length time) = 13)
  /\
  (window_length (decimal (-16) 1) (decimal 1 1) 1000 = inr 1700 /\
   exists time,
     time_vector (decimal (-16) 1) (decimal 1 1) 1000 = inr time /\
     Z.of_nat (length time) = 1701).
Proof. split; time_vector_at. Qed.

(** The example of the spec, and the defaults of the signature, come out
    right: 300 items for [tmin = -1], [tmax = 2], [sfreq = 100], and 11000
    for [tmin = -1], [tmax = 10], [sfreq = 1000]. *)
Lemma time_vector_examples :
  (window_length (float_of_int (-1)) (float_of_int 2) 100 = inr 300 /\
   exists time,
     time_vector (float_of_int (-1)) (float_of_int 2) 100 = inr time /\
     Z.of_nat (length time) = 300)
  /\
  (window_length (float_of_int (-1)) (float_of_int 10) 1000 = inr 11000 /\
   exists time,
     time_vector (float_of_int (-1)) (float_of_int 10) 1000 = inr time /\
     Z.of_nat (length time) = 11000).
Proof. split; time_vector_at. Qed.

(** ** Properties of the detection layer *)

Import Detection.

Lemma where_from_length (peaks : list bool) :
  forall i : Z, length (where_from i peaks) = beat_count peaks.
Proof.
  unfold beat_count.
  induction peaks as [|[] r IH]; intros i; simpl; [reflexivity| |];
    rewrite IH; reflexivity.
Qed.

Lemma diff_length (l : list Z) : length (diff l) = (length l - 1)%nat.
Proof.
  induction l as [|a [|b r] IH]; [reflexivity..|].
  change (diff (a :: b :: r)) with ((b - a) :: diff (b :: r)).
  simpl length in *. rewrite IH. lia.
Qed.

Lemma rr_series_of_peaks (peaks : list bool) :
  length (rr_series (Peaks peaks)) = (beat_count peaks - 1)%nat.
Proof.
  unfold rr_series, where_.
  rewrite length_map, diff_length, where_from_length. reflexivity.
Qed.

Section ClassifierProperties.

Variable context_size : nat.
Variable reference : list Q -> Q.
Variable short_ratio long_ratio : Q.
Variable ectopic_test : option Q -> Q -> option Q -> Q -> bool.
Variable missed_test : Q -> Q -> bool.
Variable extra_test : Q -> Q -> bool.

Let artefacts : rr_input -> list (string * list bool) :=
  rr_artefacts context_size reference short_ratio long_ratio ectopic_test
    missed_test extra_test.

Lemma classify_all_length (rr : list Q) :
  length (classify_all context_size reference short_ratio long_ratio
            ectopic_test missed_test extra_test rr) = length rr.
Proof.
  unfold classify_all. destruct (Nat.ltb (length rr) 2).
  - apply length_map.
  - apply length_imap.
Qed.

(** C1: [rr_artefacts] returns a mapping with exactly the keys short, long,
    ectopic, missed and extra, each bound to a boolean sequence as long as
    the RR series of the input. For a peak vector that is the number of beats
    minus one (377 for 378 beats), and the same lengths come out when the
    derived series [np.diff(np.where(peaks)[0])] is passed as ["rr_ms"]. *)
Theorem rr_artefacts_lengths (input : rr_input) (peaks : list bool) :
  (map fst (artefacts input) = categories /\
   Forall (fun kv => length (snd kv) = length (rr_series input))
     (artefacts input))
  /\
  (length (rr_series (Peaks peaks)) = (beat_count peaks - 1)%nat /\
   Forall (fun kv => length (snd kv) = (beat_count peaks - 1)%nat)
     (artefacts (Peaks peaks)) /\
   map (fun kv => length (snd kv)) (artefacts (Peaks peaks)) =
   map (fun kv => length (snd kv))
     (artefacts (RrMs (map inject_Z (diff (where_ peaks)))))).
Proof.
  assert (Hall : forall i,
    Forall (fun kv => length (snd kv) = length (rr_series i)) (artefacts i)).
  { intros i. unfold artefacts, rr_artefacts.
    repeat constructor; simpl; rewrite length_map; apply classify_all_length. }
  split; [split; [reflexivity | apply Hall]|].
  split; [apply rr_series_of_peaks|].
  split; [|reflexivity].
  rewrite <- rr_series_of_peaks. apply Hall.
Qed.

End ClassifierProperties.

(** A recording with 378 beats, one per 800 samples: all five sequences have
    377 items, from the peak vector and from the derived RR series alike. *)
Example rr_artefacts_378_beats :
  let peaks := Fixtures.regular_peaks 378 800 in
  map (fun kv => (fst kv, length (snd kv)))
    (Fixtures.sample_rr_artefacts (Peaks peaks))
    = map (fun k => (k, 377%nat)) categories /\
  map (fun kv => (fst kv, length (snd kv)))
    (Fixtures.sample_rr_artefacts
       (RrMs (map inject_Z (diff (where_ peaks)))))
    = map (fun k => (k, 377%nat)) categories.
Proof. split; vm_compute; reflexivity. Qed.

Section DetectorProperties.

Variable clean : list Q -> list Q.
Variable ppg_detector : list Q -> Z -> list nat.
Variable ecg_detectors : list (string * (list Q -> Z -> list nat)).
Variable radius : Z -> nat.

Lemma peak_vector_length (n : nat) (candidates : list nat) :
  length (peak_vector n candidates) = n.
Proof.
  unfold peak_vector.
  assert (H : forall v : list bool,
    length (fold_left (fun v i => <[i := true]> v) candidates v) = length v).
  { induction candidates as [|i r IH]; intros v; [reflexivity|].
    simpl. rewrite IH. apply length_insert. }
  rewrite H. apply repeat_length.
Qed.

Lemma flags_are_0_or_1 (peaks : list bool) :
  Forall (fun b => (as_int b = 0 \/ as_int b = 1) /\ ~ 1 < as_int b) peaks.
Proof. apply Forall_forall. intros [] _; simpl; lia. Qed.

Lemma detect_flags (detector : list Q -> Z -> list nat) (signal : list Q)
  (sfreq : Z) (find_local : bool) :
  let r := detect clean radius detector signal sfreq find_local in
  length (snd r) = length (fst r) /\
  Forall (fun b => (as_int b = 0 \/ as_int b = 1) /\ ~ 1 < as_int b) (snd r).
Proof.
  simpl. split; [apply peak_vector_length | apply flags_are_0_or_1].
Qed.

Lemma lookup_method_known (method : string) :
  In method (map fst ecg_detectors) ->
  exists detector, lookup_method ecg_detectors method = Some detector.
Proof.
  unfold lookup_method.
  induction ecg_detectors as [|[m d] r IH]; simpl; [tauto|].
  intros [->|H].
  - rewrite String.eqb_refl. eauto.
  - destruct (String.eqb m method); [eauto | apply IH, H].
Qed.

Lemma lookup_method_unknown (method : string) :
  ~ In method (map fst ecg_detectors) ->
  lookup_method ecg_detectors method = None.
Proof.
  unfold lookup_method.
  induction ecg_detectors as [|[m d] r IH]; simpl; [reflexivity|].
  intros H. destruct (String.eqb_spec m method) as [->|Hne]; [tauto|].
  apply IH. tauto.
Qed.

(** C2: [ppg_peaks], and [ecg_peaks] for every method of the table, return
    a signal and a peak vector of the same length, whose entries read as 0 or
    1 and never as more than 1. *)
Theorem peak_vectors_match_signal (signal : list Q) (sfreq : Z)
  (find_local : bool) :
  (exists s p,
     ppg_peaks clean ppg_detector radius signal sfreq = inr (s, p) /\
     length p = length s /\
     Forall (fun b => (as_int b = 0 \/ as_int b = 1) /\ ~ 1 < as_int b) p)
  /\
  Forall (fun method =>
    exists s p,
      ecg_peaks clean ecg_detectors radius signal sfreq method find_local
        = inr (s, p) /\
      length p = length s /\
      Forall (fun b => (as_int b = 0 \/ as_int b = 1) /\ ~ 1 < as_int b) p)
    (map fst ecg_detectors).
Proof.
  split.
  - pose proof (detect_flags ppg_detector signal sfreq false) as H.
    unfold ppg_peaks.
    destruct (detect clean radius ppg_detector signal sfreq false) as [s p].
    exists s, p. split; [reflexivity | exact H].
  - apply Forall_forall. intros method Hin.
    destruct (lookup_method_known method) as [d Hd].
    { apply list_elem_of_In. exact Hin. }
    unfold ecg_peaks. rewrite Hd.
    pose proof (detect_flags d signal sfreq find_local) as H.
    destruct (detect clean radius d signal sfreq find_local) as [s p].
    exists s, p. split; [reflexivity | exact H].
Qed.

(** C3: [ecg_peaks] with a method that is not in the table raises a
    [ValueError]; nothing is returned. *)
Theorem ecg_peaks_unknown_method (signal : list Q) (sfreq : Z)
  (method : string) (find_local : bool) :
  ~ In method (map fst ecg_detectors) ->
  exists msg,
    ecg_peaks clean ecg_detectors radius signal sfreq method find_local
      = inl (ValueError msg).
Proof.
  intros H. unfold ecg_peaks. rewrite (lookup_method_unknown method H).
  eexists. reflexivity.
Qed.

End DetectorProperties.

Lemma ecg_peaks_unknown_method_witness :
  exists msg,
    Fixtures.sample_ecg_peaks Fixtures.sample_ecg 2000 "error" true
      = inl (ValueError msg).
Proof.
  apply (ecg_peaks_unknown_method (fun s => s) Fixtures.sample_detectors
           (fun _ => 1%nat) Fixtures.sample_ecg 2000 "error" true).
  simpl. intros [H|[H|[H|[H|[H|[]]]]]]; discriminate H.
Defined.

(** Each tested method, on the sample signal: flags of the same length. *)
Example ecg_peaks_tested_methods :
  Forall (fun method =>
    Fixtures.sample_ecg_peaks Fixtures.sample_ecg 2000 method true
      = inr (Fixtures.sample_ecg,
             [false; false; true; false; false; true; false; false]))
    tested_methods.
Proof. repeat constructor. Qed.

(** ** Further properties of [systole/plots/utils.py] *)

Import Pipeline.

Lemma outcome_bind {A B} (m : M A) (k : A -> M B) :
  outcome (x <- m ;; k x) =
    match outcome m with
    | inl e => inl e
    | inr x => outcome (k x)
    end.
Proof. destruct m as [log [e|x]]; simpl; [reflexivity|]. by destruct (k x). Qed.

Lemma trace_bind {A B} (m : M A) (k : A -> M B) :
  trace (x <- m ;; k x) =
    (trace m ++ match outcome m with
                | inl e => []
                | inr x => trace (k x)
                end)%list.
Proof.
  destruct m as [log [e|x]]; simpl; [by rewrite app_nil_r|].
  by destruct (k x).
Qed.

(** X1: with the bokeh backend, a missing or outdated bokeh makes
    [get_plotting_function] raise [ImportError] right after the attempt to
    import bokeh; the back-end module is not imported. *)
Theorem get_plotting_function_bokeh_unavailable
  (str_lower : string -> string) (inst : installation)
  (plot_name plot_module backend : string) :
  str_lower backend = "bokeh" ->
  bokeh_probe inst <> Some true ->
  get_plotting_function str_lower inst plot_name plot_module backend
    = ([Imported "bokeh"], inl (ImportError bokeh_needed)).
Proof.
  intros Hb Hp.
  rewrite (get_plotting_function_known _ _ _ _ _ "bokeh").
  - unfold check_bokeh. simpl.
    destruct (bokeh_probe inst) as [[]|]; [done|reflexivity..].
  - rewrite Hb. reflexivity.
Qed.

Lemma get_plotting_function_bokeh_unavailable_witness :
  get_plotting_function Py.lower
    {| bokeh_probe := Some false; module_exists := fun _ => true;
       has_attr := fun _ _ => true; backend_set_repr := "" |}
    "plot_evoked" "plot_evoked" "Bokeh"
    = ([Imported "bokeh"], inl (ImportError bokeh_needed)).
Proof.
  apply get_plotting_function_bokeh_unavailable;
    [reflexivity | simpl; discriminate].
Defined.

(** X2: [get_plotting_function] returns a function exactly when the
    lower-cased selector is a key of [_backend], bokeh (if selected) is
    installed and recent enough, and the back-end module exists and has the
    attribute [plot_name]; what it returns is that attribute of
    [systole.plots.backends.<backend>.<plot_module>]. *)
Theorem get_plotting_function_returns (str_lower : string -> string)
  (inst : installation) (plot_name plot_module backend : string)
  (f : plotting_method) :
  returns (get_plotting_function str_lower inst plot_name plot_module backend)
    f
  <->
  exists b,
    _backend !! str_lower backend = Some b /\
    (b = "bokeh" -> bokeh_probe inst = Some true) /\
    module_exists inst (backend_module b plot_module) = true /\
    has_attr inst (backend_module b plot_module) plot_name = true /\
    f = {| pm_module := backend_module b plot_module; pm_name := plot_name |}.
Proof.
  unfold returns. split.
  - destruct (_backend !! str_lower backend) as [b|] eqn:Hb.
    + rewrite (get_plotting_function_known _ _ _ _ _ _ Hb).
      unfold check_bokeh, import_module, getattr.
      intros H. exists b. split; [reflexivity|].
      destruct (String.eqb_spec b "bokeh") as [->|Hne].
      * destruct (bokeh_probe inst) as [[]|]; try discriminate H.
        simpl in H.
        destruct (module_exists inst _); try discriminate H. simpl in H.
        destruct (has_attr inst _ _); try discriminate H.
        injection H as <-. done.
      * simpl in H.
        destruct (module_exists inst _); try discriminate H. simpl in H.
        destruct (has_attr inst _ _); try discriminate H.
        injection H as <-. done.
    + rewrite (get_plotting_function_unknown _ _ _ _ _ Hb). discriminate.
  - intros (b & Hb & Hprobe & Hmod & Hattr & ->).
    rewrite (get_plotting_function_known _ _ _ _ _ _ Hb).
    unfold check_bokeh, import_module, getattr.
    destruct (String.eqb_spec b "bokeh") as [->|Hne].
    + rewrite Hprobe by reflexivity. simpl. rewrite Hmod. simpl.
      rewrite Hattr. reflexivity.
    + simpl. rewrite Hmod. simpl. rewrite Hattr. reflexivity.
Qed.

(** *** What the tables read from the dataframe *)

Lemma metric_found (df : dataframe) (name : string) :
  In name (map fst df) -> exists x, metric df name = ret x.
Proof.
  unfold metric. induction df as [|[n x] df IH]; simpl; [tauto|].
  intros [->|H].
  - rewrite String.eqb_refl. eauto.
  - destruct (String.eqb n name); eauto.
Qed.

Lemma metric_missing (df : dataframe) (name : string) :
  ~ In name (map fst df) -> metric df name = raise missing_metric.
Proof.
  unfold metric. induction df as [|[n x] df IH]; simpl; [reflexivity|].
  intros H. destruct (String.eqb_spec n name) as [->|Hne]; [tauto|].
  apply IH. tauto.
Qed.

Lemma values_cases (df : dataframe) (l : list (option string)) :
  (exists cs, values df l = ret cs /\ length cs = length l) \/
  values df l = raise missing_metric.
Proof.
  induction l as [|[name|] l IH]; simpl.
  - left. eauto.
  - destruct (in_dec String.string_dec name (map fst df)) as [Hin|Hout].
    + destruct (metric_found df name Hin) as [x ->]. rewrite bind_ret_l.
      destruct IH as [(cs & -> & Hlen)| ->]; [left|right; reflexivity].
      rewrite bind_ret_l. eexists. split; [reflexivity|]. simpl. by rewrite Hlen.
    + rewrite (metric_missing df name Hout). right. reflexivity.
  - destruct IH as [(cs & -> & Hlen)| ->]; [left|right; reflexivity].
    rewrite bind_ret_l. eexists. split; [reflexivity|]. simpl. by rewrite Hlen.
Qed.

Lemma values_incomplete (df : dataframe) (l : list (option string))
  (name : string) :
  In (Some name) l -> ~ In name (map fst df) ->
  values df l = raise missing_metric.
Proof.
  intros Hin Hout. induction l as [|[n|] l IH]; simpl in *; [tauto| |].
  - destruct (in_dec String.string_dec n (map fst df)) as [Hn|Hn].
    + destruct (metric_found df n Hn) as [x ->]. rewrite bind_ret_l.
      destruct Hin as [[= ->]|Hin]; [tauto|]. rewrite (IH Hin). reflexivity.
    + rewrite (metric_missing df n Hn). reflexivity.
  - destruct Hin as [[=]|Hin]. rewrite (IH Hin). reflexivity.
Qed.

Lemma values_complete (df : dataframe) (l : list (option string)) :
  (forall name, In (Some name) l -> In name (map fst df)) ->
  exists cs, values df l = ret cs /\ length cs = length l.
Proof.
  intros H. induction l as [|[n|] l IH]; simpl.
  - eauto.
  - destruct (metric_found df n) as [x ->]; [apply H; simpl; tauto|].
    rewrite bind_ret_l.
    destruct IH as (cs & -> & Hlen); [intros; apply H; simpl; tauto|].
    rewrite bind_ret_l. eexists. split; [reflexivity|]. simpl. by rewrite Hlen.
  - destruct IH as (cs & -> & Hlen); [intros; apply H; simpl; tauto|].
    rewrite bind_ret_l. eexists. split; [reflexivity|]. simpl. by rewrite Hlen.
Qed.

Ltac named_in_list :=
  simpl; intros name Hin;
  repeat match goal with
  | H : _ \/ _ |- _ => destruct H as [H|H]
  | H : Some _ = Some _ |- _ => injection H as <-
  | H : None = Some _ |- _ => discriminate H
  | H : False |- _ => destruct H
  end;
  match goal with
  | H : forall n, In n _ -> In n _ |- _ => apply H; simpl; tauto
  end.

Section TableReads.

Variable domain : ndarray -> string -> exn + dataframe.
Variables (rr : option ndarray) (input_type : option string).
Variables (backend : string) (width height : option Z).
Variable df : dataframe.

Lemma time_table_missing (name : string) :
  ~ In name (map fst df) -> In name time_metrics ->
  time_table domain rr input_type (Some df) backend width height
    = raise missing_metric.
Proof.
  intros Hout Hin. unfold time_table.
  rewrite summary_given, bind_ret_l.
  rewrite (values_incomplete df _ name); [reflexivity| |exact Hout].
  simpl in *. intuition (subst; tauto).
Qed.

Lemma time_table_complete :
  (forall name, In name time_metrics -> In name (map fst df)) ->
  exists data,
    time_table domain rr input_type (Some df) backend width height
      = render_table backend data
          [("variable", "Variable"); ("units", "Units"); ("value", "Value")]
          width height /\
    map fst data = ["variable"; "units"; "value"] /\
    Forall (fun col => length (snd col) = 15%nat) data.
Proof.
  intros H. unfold time_table. rewrite summary_given, bind_ret_l.
  match goal with
  | |- context [values df ?l] =>
      destruct (values_complete df l) as (cs & -> & Hlen)
  end.
  { named_in_list. }
  rewrite bind_ret_l. eexists. split; [reflexivity|].
  split; [reflexivity|]. repeat constructor. exact Hlen.
Qed.

End TableReads.

Section TableReadsOthers.

Variable domain : ndarray -> string -> exn + dataframe.
Variables (rr : option ndarray) (input_type : option string).
Variables (backend : string) (width height : option Z).
Variable df : dataframe.

Ltac next_values name Heq Hout :=
  match goal with
  | |- context [values df ?l] =>
      first
        [ rewrite (values_incomplete df l name);
            [reflexivity | rewrite <- Heq; simpl; tauto | exact Hout]
        | destruct (values_cases df l) as [(? & -> & _)| ->];
            [rewrite bind_ret_l | reflexivity] ]
  end.

Lemma frequency_table_missing (name : string) :
  ~ In name (map fst df) -> In name frequency_metrics ->
  frequency_table domain rr input_type (Some df) backend width height
    = raise missing_metric.
Proof.
  intros Hout Hin. unfold frequency_table.
  rewrite summary_given, bind_ret_l.
  simpl in Hin.
  repeat (destruct Hin as [Heq|Hin];
          [repeat next_values name Heq Hout; fail|]).
  destruct Hin.
Qed.

Lemma nonlinear_table_missing (name : string) :
  ~ In name (map fst df) -> In name nonlinear_metrics ->
  nonlinear_table domain rr input_type (Some df) backend width height
    = raise missing_metric.
Proof.
  intros Hout Hin. unfold nonlinear_table.
  rewrite summary_given, bind_ret_l.
  rewrite (values_incomplete df _ name); [reflexivity| |exact Hout].
  simpl in *. intuition (subst; tauto).
Qed.

Lemma frequency_table_complete :
  (forall name, In name frequency_metrics -> In name (map fst df)) ->
  exists data,
    frequency_table domain rr input_type (Some df) backend width height
      = render_table backend data
          [("frequencies", "Frequency Band"); ("peaks", "Peaks (Hz)");
           ("power", "Power (ms²)"); ("power_per", "Power (%)");
           ("power_nu", "Power (n.u.)")]
          width height /\
    map fst data = ["frequencies"; "peaks"; "power"; "power_per"; "power_nu"] /\
    Forall (fun col => length (snd col) = 5%nat) data.
Proof.
  intros H. unfold frequency_table. rewrite summary_given, bind_ret_l.
  do 4 (match goal with
        | |- context [values df ?l] =>
            let Hlen := fresh "Hlen" in
            destruct (values_complete df l) as (? & -> & Hlen);
              [named_in_list | rewrite bind_ret_l]
        end).
  eexists. split; [reflexivity|].
  split; [reflexivity|]. repeat constructor; assumption.
Qed.

Lemma nonlinear_table_complete :
  (forall name, In name nonlinear_metrics -> In name (map fst df)) ->
  exists data,
    nonlinear_table domain rr input_type (Some df) backend width height
      = render_table backend data
          [("variable", "Variable"); ("units", "Units"); ("value", "Value")]
          width height /\
    map fst data = ["variable"; "units"; "value"] /\
    Forall (fun col => length (snd col) = 10%nat) data.
Proof.
  intros H. unfold nonlinear_table. rewrite summary_given, bind_ret_l.
  match goal with
  | |- context [values df ?l] =>
      destruct (values_complete df l) as (cs & -> & Hlen)
  end.
  { named_in_list. }
  rewrite bind_ret_l. eexists. split; [reflexivity|].
  split; [reflexivity|]. repeat constructor. exact Hlen.
Qed.

End TableReadsOthers.

Lemma render_table_returns (backend : string) (data : table_data)
  (columns : list (string * string)) (width height : option Z) (t : table) :
  returns (render_table backend data columns width height) t ->
  (backend = "bokeh" \/ backend = "tabulate") /\ data_of t = data.
Proof.
  unfold render_table, returns.
  destruct (String.eqb_spec backend "bokeh") as [->|H1].
  { intros [= <-]. split; [tauto | reflexivity]. }
  destruct (String.eqb_spec backend "tabulate") as [->|H2].
  { intros [= <-]. split; [tauto | reflexivity]. }
  discriminate.
Qed.

Lemma render_table_known (backend : string) (data : table_data)
  (columns : list (string * string)) (width height : option Z) :
  backend = "bokeh" \/ backend = "tabulate" ->
  exists t, returns (render_table backend data columns width height) t.
Proof. intros [->| ->]; eexists; reflexivity. Qed.

(** Either every metric of [names] is in the dataframe, or one is not. *)
Lemma metrics_present_or_not (df : dataframe) (names : list string) :
  (forall name, In name names -> In name (map fst df)) \/
  (exists name, In name names /\ ~ In name (map fst df)).
Proof.
  induction names as [|n names IH]; [left; intros ? []|].
  destruct (in_dec String.string_dec n (map fst df)) as [Hn|Hn].
  - destruct IH as [Hall|(name & Hin & Hout)].
    + left. intros name [<-|Hin]; [exact Hn | exact (Hall name Hin)].
    + right. exists name. split; [right; exact Hin | exact Hout].
  - right. exists n. split; [left; reflexivity | exact Hn].
Qed.

(** X3: when the summary dataframe lacks a metric that a table reads, the
    table function raises [IndexError], whatever the backend (known or
    not). *)
Theorem tables_missing_metric
  (domain : ndarray -> string -> exn + dataframe) (rr : option ndarray)
  (input_type : option string) (backend : string) (width height : option Z)
  (df : dataframe) (name : string) :
  ~ In name (map fst df) ->
  (In name time_metrics ->
   time_table domain rr input_type (Some df) backend width height
     = ([], inl missing_metric)) /\
  (In name frequency_metrics ->
   frequency_table domain rr input_type (Some df) backend width height
     = ([], inl missing_metric)) /\
  (In name nonlinear_metrics ->
   nonlinear_table domain rr input_type (Some df) backend width height
     = ([], inl missing_metric)).
Proof.
  intros Hout. repeat split; intros Hin.
  - by apply (time_table_missing _ _ _ _ _ _ _ name).
  - by apply (frequency_table_missing _ _ _ _ _ _ _ name).
  - by apply (nonlinear_table_missing _ _ _ _ _ _ _ name).
Qed.

Lemma tables_missing_metric_witness :
  time_table Fixtures.sample_time_domain None None
    (Some [("MeanRR", Fixtures.f 800)]) "plotly" None None
    = ([], inl missing_metric).
Proof.
  refine (proj1 (tables_missing_metric Fixtures.sample_time_domain None None
                   "plotly" None None [("MeanRR", Fixtures.f 800)] "pnn50" _)
            _).
  - simpl. intros [H|[]]. discriminate H.
  - unfold time_metrics. simpl. intuition.
Defined.

Section TableResults.

Variable domain : ndarray -> string -> exn + dataframe.
Variables (rr : option ndarray) (input_type : option string).
Variables (backend : string) (width height : option Z).
Variable df : dataframe.

(** X4: given a summary dataframe, each table function returns a table
    exactly when the backend is "bokeh" or "tabulate" and the dataframe has
    every metric the table reads. *)
Theorem tables_return_iff :
  ((exists t,
      returns (time_table domain rr input_type (Some df) backend width
                 height) t)
   <-> (backend = "bokeh" \/ backend = "tabulate") /\
       (forall name, In name time_metrics -> In name (map fst df)))
  /\
  ((exists t,
      returns (frequency_table domain rr input_type (Some df) backend width
                 height) t)
   <-> (backend = "bokeh" \/ backend = "tabulate") /\
       (forall name, In name frequency_metrics -> In name (map fst df)))
  /\
  ((exists t,
      returns (nonlinear_table domain rr input_type (Some df) backend width
                 height) t)
   <-> (backend = "bokeh" \/ backend = "tabulate") /\
       (forall name, In name nonlinear_metrics -> In name (map fst df))).
Proof.
  repeat split.
  1, 2: destruct H as [t Ht];
    destruct (metrics_present_or_not df time_metrics)
      as [Hall|(name & Hin & Hout)];
    [ destruct (time_table_complete domain rr input_type backend width
                  height df Hall) as (data & E & _);
      rewrite E in Ht; apply render_table_returns in Ht; tauto
    | unfold returns in Ht;
      rewrite (time_table_missing _ _ _ _ _ _ _ name Hout Hin) in Ht;
      discriminate Ht ].
  2, 3: destruct H as [t Ht];
    destruct (metrics_present_or_not df frequency_metrics)
      as [Hall|(name & Hin & Hout)];
    [ destruct (frequency_table_complete domain rr input_type backend width
                  height df Hall) as (data & E & _);
      rewrite E in Ht; apply render_table_returns in Ht; tauto
    | unfold returns in Ht;
      rewrite (frequency_table_missing _ _ _ _ _ _ _ name Hout Hin) in Ht;
      discriminate Ht ].
  3, 4: destruct H as [t Ht];
    destruct (metrics_present_or_not df nonlinear_metrics)
      as [Hall|(name & Hin & Hout)];
    [ destruct (nonlinear_table_complete domain rr input_type backend width
                  height df Hall) as (data & E & _);
      rewrite E in Ht; apply render_table_returns in Ht; tauto
    | unfold returns in Ht;
      rewrite (nonlinear_table_missing _ _ _ _ _ _ _ name Hout Hin) in Ht;
      discriminate Ht ].
  - intros [Hb Hall].
    destruct (time_table_complete domain rr input_type backend width
                height df Hall) as (data & -> & _).
    by apply render_table_known.
  - intros [Hb Hall].
    destruct (frequency_table_complete domain rr input_type backend width
                height df Hall) as (data & -> & _).
    by apply render_table_known.
  - intros [Hb Hall].
    destruct (nonlinear_table_complete domain rr input_type backend width
                height df Hall) as (data & -> & _).
    by apply render_table_known.
Qed.

(** X5: a table that is returned is rectangular: the time-domain table has
    the columns variable, units and value with 15 cells each, the
    frequency-domain table five columns of 5 cells, the nonlinear table
    three columns of 10 cells. *)
Theorem tables_are_rectangular (t : table) :
  (returns (time_table domain rr input_type (Some df) backend width height) t
   -> map fst (data_of t) = ["variable"; "units"; "value"] /\
      Forall (fun col => length (snd col) = 15%nat) (data_of t))
  /\
  (returns (frequency_table domain rr input_type (Some df) backend width
              height) t
   -> map fst (data_of t)
        = ["frequencies"; "peaks"; "power"; "power_per"; "power_nu"] /\
      Forall (fun col => length (snd col) = 5%nat) (data_of t))
  /\
  (returns (nonlinear_table domain rr input_type (Some df) backend width
              height) t
   -> map fst (data_of t) = ["variable"; "units"; "value"] /\
      Forall (fun col => length (snd col) = 10%nat) (data_of t)).
Proof.
  repeat split.
  1, 2: destruct (metrics_present_or_not df time_metrics)
      as [Hall|(name & Hin & Hout)];
    [ destruct (time_table_complete domain rr input_type backend width
                  height df Hall) as (data & E & Hk & Hl);
      rewrite E in H; apply render_table_returns in H as [_ ->]; assumption
    | unfold returns in H;
      rewrite (time_table_missing _ _ _ _ _ _ _ name Hout Hin) in H;
      discriminate H ].
  1, 2: destruct (metrics_present_or_not df frequency_metrics)
      as [Hall|(name & Hin & Hout)];
    [ destruct (frequency_table_complete domain rr input_type backend width
                  height df Hall) as (data & E & Hk & Hl);
      rewrite E in H; apply render_table_returns in H as [_ ->]; assumption
    | unfold returns in H;
      rewrite (frequency_table_missing _ _ _ _ _ _ _ name Hout Hin) in H;
      discriminate H ].
  1, 2: destruct (metrics_present_or_not df nonlinear_metrics)
      as [Hall|(name & Hin & Hout)];
    [ destruct (nonlinear_table_complete domain rr input_type backend width
                  height df Hall) as (data & E & Hk & Hl);
      rewrite E in H; apply render_table_returns in H as [_ ->]; assumption
    | unfold returns in H;
      rewrite (nonlinear_table_missing _ _ _ _ _ _ _ name Hout Hin) in H;
      discriminate H ].
Qed.

End TableResults.

(** X6: [frequency_table] and [nonlinear_table] share the missing case of
    [time_table]: with a backend other than "bokeh" and "tabulate" and no
    summary dataframe, the summary is computed first and no table is ever
    returned. *)
Theorem other_tables_unknown_backend
  (frequency_domain nonlinear_domain : ndarray -> string -> exn + dataframe)
  (rr : ndarray) (input_type backend : string) (width height : option Z) :
  backend <> "bokeh" -> backend <> "tabulate" ->
  (trace (frequency_table frequency_domain (Some rr) (Some input_type) None
            backend width height) = [Called "frequency_domain"] /\
   forall t, ~ returns (frequency_table frequency_domain (Some rr)
                          (Some input_type) None backend width height) t)
  /\
  (trace (nonlinear_table nonlinear_domain (Some rr) (Some input_type) None
            backend width height) = [Called "nonlinear_domain"] /\
   forall t, ~ returns (nonlinear_table nonlinear_domain (Some rr)
                          (Some input_type) None backend width height) t).
Proof.
  intros H1 H2. unfold frequency_table, nonlinear_table, summary.
  repeat split.
  - apply trace_bind_call. intros df.
    repeat (apply trace_bind_nil; [apply values_trace|]; intros ?).
    apply render_table_trace.
  - apply bind_never_returns. intros df.
    do 4 (apply bind_never_returns; intros ?). intros t.
    rewrite render_table_unknown by assumption. discriminate.
  - apply trace_bind_call. intros df.
    repeat (apply trace_bind_nil; [apply values_trace|]; intros ?).
    apply render_table_trace.
  - apply bind_never_returns. intros df.
    apply bind_never_returns. intros cs t.
    rewrite render_table_unknown by assumption. discriminate.
Qed.

Lemma other_tables_unknown_backend_witness :
  trace (frequency_table Fixtures.sample_time_domain
           (Some Fixtures.sample_rr) (Some "rr_ms") None "plotly" None None)
    = [Called "frequency_domain"].
Proof.
  refine (proj1 (proj1 (other_tables_unknown_backend
            Fixtures.sample_time_domain Fixtures.sample_time_domain
            Fixtures.sample_rr "rr_ms" "plotly" None None _ _)));
    discriminate.
Defined.

(** ** Further properties of [systole/plots/plot_evoked.py] *)

Lemma stride_one {A} (xs : list A) : stride 1 xs = xs.
Proof.
  unfold stride. simpl.
  induction xs as [|x xs IH]; [reflexivity|]. simpl. by rewrite IH.
Qed.

(** X7: a decimation factor of 1 changes nothing: epochs and time vector
    come out as they went in. *)
Theorem decimate_by_one (epochs : list array2) (time : list float) :
  decimate (Some 1) epochs time = decimate None epochs time.
Proof.
  unfold decimate. rewrite decimate_epochs_pos. simpl.
  rewrite stride_one. do 2 f_equal.
  induction epochs as [|[n rows] r IH]; [reflexivity|].
  simpl. rewrite IH. f_equal. f_equal.
  - rewrite stride_one. apply length_seq.
  - clear. induction rows as [|row rows IH]; [reflexivity|].
    simpl. by rewrite stride_one, IH.
Qed.

Lemma stride_stride {A} (n m : positive) (xs : list A) :
  stride m (stride n xs) = stride (n * m) xs.
Proof.
  apply list_eq. intros j. rewrite !stride_lookup. f_equal.
  rewrite Pos2Nat.inj_mul. lia.
Qed.

(** X8: decimating by N and then by M is decimating by N * M, for the epochs
    and for the time vector. *)
Theorem decimate_twice (n m : positive) (epochs : list array2)
  (time : list float) :
  exists epochs' time',
    decimate (Some (Z.pos n)) epochs time = inr (epochs', time') /\
    decimate (Some (Z.pos m)) epochs' time'
      = decimate (Some (Z.pos (n * m))) epochs time.
Proof.
  unfold decimate. rewrite !decimate_epochs_pos. simpl.
  eexists _, _. split; [reflexivity|].
  rewrite decimate_epochs_pos, stride_stride. do 2 f_equal.
  rewrite map_map. apply map_ext. intros a. simpl. f_equal.
  - rewrite <- (stride_stride n m).
    apply stride_same_length. by rewrite length_seq.
  - rewrite map_map. apply map_ext. intros row. apply stride_stride.
Qed.

(** X9: without [labels], every condition gets its own label: as many
    labels as conditions, "Condition 1", "Condition 2", ..., no two alike. *)
Theorem default_labels_distinct (n : nat) :
  length (default_labels n) = n /\
  (forall i : nat, (i < n)%nat ->
     default_labels n !! i = Some ("Condition " ++ pretty (i + 1)%nat)) /\
  NoDup (default_labels n).
Proof.
  unfold default_labels. split; [by rewrite length_map, length_seq|]. split.
  - intros i Hi. rewrite list_lookup_fmap, lookup_seq_lt by exact Hi.
    reflexivity.
  - apply NoDup_fmap_2; [|apply NoDup_seq].
    intros i j H. simpl in H. simplify_eq. lia.
Qed.

(** *** The order of the calls *)

Lemma follows_ret {A} (x : A) : follows (ret x) [].
Proof. split; [apply prefix_nil | reflexivity]. Qed.

Lemma follows_raise {A} (e : exn) (l : list event) :
  follows (raise e : M A) l.
Proof. split; [apply prefix_nil | intros x H; discriminate H]. Qed.

Lemma follows_lift {A} (r : exn + A) : follows (lift r) [].
Proof. split; [apply prefix_nil | reflexivity]. Qed.

Lemma follows_call {A} (name : string) (r : exn + A) :
  follows (call name r) [Called name].
Proof. split; [reflexivity | reflexivity]. Qed.

Lemma follows_bind {A B} (m : M A) (k : A -> M B) (l1 l2 : list event) :
  follows m l1 -> (forall x, follows (k x) l2) ->
  follows (x <- m ;; k x) (l1 ++ l2)%list.
Proof.
  intros [Hp Hr] Hk. unfold follows, returns.
  rewrite trace_bind, outcome_bind.
  destruct (outcome m) as [e|x] eqn:Hm.
  - rewrite app_nil_r. split; [by apply prefix_app_r | discriminate].
  - rewrite (Hr x Hm). destruct (Hk x) as [Hp' Hr']. split.
    + by apply prefix_app.
    + intros y Hy. by rewrite (Hr' y Hy).
Qed.

Lemma follows_bind_nil {A B} (m : M A) (k : A -> M B) (l : list event) :
  follows m [] -> (forall x, follows (k x) l) -> follows (x <- m ;; k x) l.
Proof. intros Hm Hk. apply (follows_bind m k [] l); assumption. Qed.

Lemma follows_get_plotting_function (str_lower : string -> string)
  (inst : installation) (plot_name backend : string) :
  follows (get_plotting_function str_lower inst plot_name "plot_evoked"
             backend)
    (dispatch_events (_backend !! str_lower backend)).
Proof.
  destruct (_backend !! str_lower backend) as [b|] eqn:Hb.
  - rewrite (get_plotting_function_known _ _ _ _ _ _ Hb).
    unfold dispatch_events, check_bokeh, import_module, getattr.
    destruct (String.eqb b "bokeh");
      [destruct (bokeh_probe inst) as [[]|]|];
      destruct (module_exists inst _); simpl;
      try destruct (has_attr inst _ _); simpl;
      (split; [by eexists | intros x H; (discriminate H || reflexivity)]).
  - rewrite (get_plotting_function_unknown _ _ _ _ _ Hb). apply follows_raise.
Qed.

Section PlotEvokedCalls.

Variable str_lower : string -> string.
Variable inst : installation.
Variable deep : list string.
Variable ppg_peaks : ndarray -> Z -> exn + (ndarray * ndarray).
Variable ecg_peaks : ndarray -> Z -> exn + (ndarray * ndarray).
Variable heart_rate :
  ndarray -> string -> string -> string -> option Z ->
  exn + (ndarray * ndarray).
Variable to_epochs :
  option ndarray -> option ndarray -> option (list (list Z)) ->
  option ndarray -> Z -> option baseline_arg -> float -> float ->
  exn + (epochs_arg * list Z).
Variable figure : Type.
Variable render : plotting_method -> plot_evoked_args -> exn + figure.

Let run : arguments -> M figure :=
  plot_evoked str_lower inst deep ppg_peaks ecg_peaks heart_rate to_epochs
    figure render.

Lemma follows_define_palette (p : palette_arg) :
  follows (define_palette deep p) [].
Proof. destruct p; [apply follows_ret.. | apply follows_raise]. Qed.

Lemma follows_instantaneous_rate (a : arguments) :
  follows (instantaneous_rate ppg_peaks ecg_peaks heart_rate a)
    (rate_events a).
Proof.
  unfold instantaneous_rate, rate_events, rate_of_signal, rate_of_rr.
  destruct (signal a) as [s|]; [|destruct (rr a) as [r|]].
  - destruct (Nat.ltb 1 (ndim s)); [apply follows_raise|].
    destruct (String.eqb (modality a) "ppg");
      [|destruct (String.eqb (modality a) "ecg")].
    + destruct (ppg_peaks s (sfreq a)) as [e|[s' p]]; simpl;
        [split; [by eexists | intros x H; discriminate H]|].
      destruct (heart_rate p _ _ _ _) as [e|[h i]]; simpl;
        (split; [by eexists | intros x H; (discriminate H || reflexivity)]).
    + destruct (ecg_peaks s (sfreq a)) as [e|[s' p]]; simpl;
        [split; [by eexists | intros x H; discriminate H]|].
      destruct (heart_rate p _ _ _ _) as [e|[h i]]; simpl;
        (split; [by eexists | intros x H; (discriminate H || reflexivity)]).
    + simpl. split; [by eexists | intros x H; discriminate H].
  - destruct (Nat.ltb 1 (ndim r)); [apply follows_raise|].
    destruct (heart_rate r _ _ _ _) as [e|[h i]]; simpl;
      (split; [by eexists | intros x H; (discriminate H || reflexivity)]).
  - apply follows_ret.
Qed.

Lemma follows_epoching (a : arguments) (rr : option ndarray) :
  follows (epoching to_epochs a rr) (epoching_events a).
Proof.
  unfold epoching, epoching_events.
  destruct (epochs a) as [e|].
  - rewrite bind_ret_l. apply follows_ret.
  - destruct (to_epochs _ _ _ _ _ _ _ _) as [e|[e c]]; simpl;
      (split; [by eexists | intros x H; (discriminate H || reflexivity)]).
Qed.

(** X12: the calls of a run of [plot_evoked] come in one order: the
    detector of the modality and the heart-rate conversion (the conversion
    alone for [rr]), [to_epochs] unless [epochs] was given, the imports of
    the backend, the rendering function. A run that fails stops somewhere
    along this list; a run that returns has made exactly these calls, each
    once. *)
Theorem plot_evoked_calls_in_order (a : arguments) :
  trace (run a) `prefix_of` pipeline str_lower a /\
  (forall fig, returns (run a) fig -> trace (run a) = pipeline str_lower a).
Proof.
  change (follows (run a) (pipeline str_lower a)).
  unfold run, plot_evoked, pipeline.
  apply follows_bind_nil; [apply follows_define_palette | intros this_palette].
  apply follows_bind; [apply follows_instantaneous_rate | intros rr].
  apply follows_bind; [apply follows_epoching | intros epochs].
  apply follows_bind_nil; [apply follows_lift | intros time].
  apply follows_bind_nil; [apply follows_lift | intros et].
  apply follows_bind; [apply follows_get_plotting_function | intros fn].
  apply follows_call.
Qed.

(** X10: the backend is looked at last: with a selector that is not a key of
    [_backend], [plot_evoked] never returns a figure, and whatever it did
    before failing were calls of the heart-rate and epoching stages: nothing
    is imported or rendered. *)
Theorem plot_evoked_unknown_backend (a : arguments) :
  _backend !! str_lower (backend a) = None ->
  trace (run a) `prefix_of` (rate_events a ++ epoching_events a)%list /\
  (forall fig, ~ returns (run a) fig).
Proof.
  intros Hb.
  assert (Hlast : forall args,
    (plotting_function <-
       get_plotting_function str_lower inst "plot_evoked" "plot_evoked"
         (backend a) ;;
     call "plot_evoked" (render plotting_function args))
    = raise (KeyError (unknown_backend_message inst (str_lower (backend a))))).
  { intros args. rewrite (get_plotting_function_unknown _ _ _ _ _ Hb).
    reflexivity. }
  split.
  - assert (H : follows (run a)
                  (rate_events a ++ epoching_events a ++ [])%list).
    { unfold run, plot_evoked.
      apply follows_bind_nil;
        [apply follows_define_palette | intros this_palette].
      apply follows_bind; [apply follows_instantaneous_rate | intros rr].
      apply follows_bind; [apply follows_epoching | intros epochs].
      apply follows_bind_nil; [apply follows_lift | intros time].
      apply follows_bind_nil; [apply follows_lift | intros et].
      rewrite Hlast. apply follows_raise. }
    rewrite app_nil_r in H. exact (proj1 H).
  - unfold run, plot_evoked.
    do 5 (apply bind_never_returns; intros ?). intros fig.
    rewrite Hlast. discriminate.
Qed.

(** X11: [signal] wins over [rr]: when a signal is passed, [rr] and
    [input_type] play no part in the call. *)
Theorem plot_evoked_signal_first (a : arguments) (s : ndarray)
  (rr' : option ndarray) (input_type' : string) :
  signal a = Some s ->
  run (with_rr a rr' input_type') = run a.
Proof.
  intros Hs. unfold run, plot_evoked, instantaneous_rate, epoching.
  simpl. rewrite Hs. reflexivity.
Qed.

End PlotEvokedCalls.

Lemma plot_evoked_unknown_backend_witness :
  let a := with_backend
             (Fixtures.call_with None (Some Fixtures.sample_rr) "ppg"
                PaletteNone) "plotly" in
  trace (Fixtures.sample_plot_evoked a)
    `prefix_of` [Called "heart_rate"; Called "to_epochs"] /\
  (forall fig, ~ returns (Fixtures.sample_plot_evoked a) fig).
Proof.
  apply (plot_evoked_unknown_backend Py.lower Fixtures.full_installation []
           Fixtures.sample_peaks Fixtures.sample_peaks
           Fixtures.sample_heart_rate Fixtures.sample_to_epochs
           plot_evoked_args Fixtures.sample_render).
  vm_compute. reflexivity.
Defined.

Lemma plot_evoked_signal_first_witness :
  let a := Fixtures.call_with (Some Fixtures.sample_signal) None "ppg"
             PaletteNone in
  Fixtures.sample_plot_evoked
    (with_rr a (Some Fixtures.sample_matrix) "rr_ms")
    = Fixtures.sample_plot_evoked a.
Proof.
  apply (plot_evoked_signal_first Py.lower Fixtures.full_installation []
           Fixtures.sample_peaks Fixtures.sample_peaks
           Fixtures.sample_heart_rate Fixtures.sample_to_epochs
           plot_evoked_args Fixtures.sample_render _ Fixtures.sample_signal).
  reflexivity.
Defined.

(** *** Errors of the time vector *)

(** X13: a sampling frequency of zero makes the time vector fail with
    [ZeroDivisionError] (for a finite [tmin]), and a [tmin] that is not a
    number makes it fail with [ValueError] for every sampling frequency that
    a float holds exactly (below 2^53 in magnitude), whatever [tmax]. *)
Theorem time_vector_errors (tmax : float) (sfreq : Z) :
  (forall (s : bool) (m : positive) (e : Z),
     time_vector (S754_finite s m e) tmax 0 = inl ZeroDivisionError) /\
  (forall s : bool,
     time_vector (S754_zero s) tmax 0 = inl ZeroDivisionError) /\
  (Z.abs sfreq < 2 ^ 53 ->
   time_vector S754_nan tmax sfreq
     = inl (ValueError "cannot convert float NaN to integer")).
Proof.
  split; [|split].
  - intros s m e. reflexivity.
  - intros s. reflexivity.
  - intros _. unfold time_vector, fmul, SFmul. reflexivity.
Qed.

Lemma time_vector_errors_witness :
  time_vector (S754_finite false 1 0) (float_of_int 10) 0
    = inl ZeroDivisionError /\
  time_vector S754_nan (float_of_int 10) 1000
    = inl (ValueError "cannot convert float NaN to integer").
Proof.
  destruct (time_vector_errors (float_of_int 10) 1000) as (H0 & _ & Hnan).
  split.
  - destruct (time_vector_errors (float_of_int 10) 0) as (H & _ & _).
    apply H.
  - apply Hnan. reflexivity.
Defined.

(** ** Further properties of the beat indices of the test suite *)

Lemma where_from_bounds (peaks : list bool) :
  forall i x : Z, In x (where_from i peaks) ->
    i <= x < i + Z.of_nat (length peaks).
Proof.
  induction peaks as [|[] r IH]; intros i x; simpl; [tauto| |].
  - intros [<-|H]; [lia|]. apply IH in H. lia.
  - intros H. apply IH in H. lia.
Qed.

Lemma diff_where_from (peaks : list bool) :
  forall i : Z,
    Forall (fun d => 0 < d < Z.of_nat (length peaks))
      (diff (where_from i peaks)).
Proof.
  induction peaks as [|b r IH]; intros i; [constructor|].
  assert (Hr : Forall (fun d => 0 < d < Z.of_nat (length (b :: r)))
                 (diff (where_from (i + 1) r))).
  { eapply List.Forall_impl; [|apply IH]. intros d Hd. simpl in *. lia. }
  destruct b; simpl where_from; [|exact Hr].
  destruct (where_from (i + 1) r) as [|x l] eqn:E; [constructor|].
  change (diff (i :: x :: l)) with ((x - i) :: diff (x :: l)).
  constructor; [|exact Hr].
  assert (Hx : In x (where_from (i + 1) r)) by (rewrite E; left; reflexivity).
  apply where_from_bounds in Hx. simpl length. lia.
Qed.

(** X14: the RR series that the test derives from a peak vector,
    [np.diff(np.where(peaks)[0])], has only strictly positive intervals, each
    shorter than the recording. *)
Theorem intervals_of_peaks_positive (peaks : list bool) :
  Forall (fun d => 0 < d < Z.of_nat (length peaks)) (diff (where_ peaks)).
Proof. apply diff_where_from. Qed.

(** ** What [plot_evoked] hands to the rendering function *)

Lemma returns_bind_inv {A B} (m : M A) (k : A -> M B) (y : B) :
  returns (x <- m ;; k x) y -> exists x, returns m x /\ returns (k x) y.
Proof.
  unfold returns. rewrite outcome_bind.
  destruct (outcome m) as [e|x]; [discriminate|]. eauto.
Qed.

Lemma decimate_epochs_length (d : Z) (epochs epochs' : list array2) :
  decimate_epochs d epochs = inr epochs' -> length epochs' = length epochs.
Proof.
  revert epochs'. induction epochs as [|a r IH]; intros epochs'; simpl.
  - intros [= <-]. reflexivity.
  - destruct (slice_columns d a) as [e|a']; [discriminate|].
    destruct (decimate_epochs d r) as [e|r']; [discriminate|].
    intros [= <-]. simpl. by rewrite (IH r').
Qed.

Lemma decimate_length (d : option Z) (epochs epochs' : list array2)
  (time time' : list float) :
  decimate d epochs time = inr (epochs', time') ->
  length epochs' = length epochs.
Proof.
  unfold decimate. destruct d as [d|]; [|by intros [= <- _]].
  destruct (decimate_epochs d epochs) as [e|r] eqn:E; [discriminate|].
  destruct (slice_step d time); [discriminate|].
  intros [= <- _]. by apply (decimate_epochs_length d).
Qed.

Section PlotEvokedRendering.

Variable str_lower : string -> string.
Variable inst : installation.
Variable deep : list string.
Variable ppg_peaks : ndarray -> Z -> exn + (ndarray * ndarray).
Variable ecg_peaks : ndarray -> Z -> exn + (ndarray * ndarray).
Variable heart_rate :
  ndarray -> string -> string -> string -> option Z ->
  exn + (ndarray * ndarray).
Variable to_epochs :
  option ndarray -> option ndarray -> option (list (list Z)) ->
  option ndarray -> Z -> option baseline_arg -> float -> float ->
  exn + (epochs_arg * list Z).
Variable figure : Type.
Variable render : plotting_method -> plot_evoked_args -> exn + figure.

Let run : arguments -> M figure :=
  plot_evoked str_lower inst deep ppg_peaks ecg_peaks heart_rate to_epochs
    figure render.

(** A figure that is returned was rendered from these arguments. *)
Lemma plot_evoked_returns (a : arguments) (fig : figure) :
  returns (run a) fig ->
  exists this_palette epochs time epochs' time' fn,
    returns (define_palette deep (palette a)) this_palette /\
    time_vector (tmin a) (tmax a) (sfreq a) = inr time /\
    decimate (decim a) epochs time = inr (epochs', time') /\
    returns (get_plotting_function str_lower inst "plot_evoked"
               "plot_evoked" (backend a)) fn /\
    render fn
      {| pa_epochs := epochs'; pa_time := time';
         pa_palette := this_palette; pa_ax := ax a;
         pa_figsize := define_figsize (figsize a) (backend a);
         pa_labels := define_labels (labels a) (length epochs);
         pa_unit := unit a; pa_ci := ci a |} = inr fig.
Proof.
  unfold run, plot_evoked. intros H.
  apply returns_bind_inv in H as (this_palette & Hp & H).
  apply returns_bind_inv in H as (rr & _ & H).
  apply returns_bind_inv in H as (epochs & _ & H).
  apply returns_bind_inv in H as (time & Ht & H).
  apply returns_bind_inv in H as ([epochs' time'] & Hd & H).
  apply returns_bind_inv in H as (fn & Hf & H).
  exists this_palette, epochs, time, epochs', time', fn.
  repeat split; assumption.
Qed.

(** X15: when no labels are passed, the rendering function receives one
    label per condition, also after decimation; a label passed as a single
    string stays a single label, however many conditions there are. *)
Theorem plot_evoked_labels (a : arguments) (fig : figure) :
  returns (run a) fig ->
  exists fn args,
    render fn args = inr fig /\
    (labels a = None -> length (pa_labels args) = length (pa_epochs args)) /\
    (forall s, labels a = Some (LabelsStr s) -> pa_labels args = [s]).
Proof.
  intros H.
  destruct (plot_evoked_returns a fig H)
    as (p & epochs & time & epochs' & time' & fn & _ & _ & Hd & _ & Hr).
  eexists _, _. split; [exact Hr|]. simpl. split.
  - intros ->. simpl. unfold default_labels.
    rewrite length_map, length_seq. symmetry.
    by apply (decimate_length (decim a) epochs epochs' time time').
  - intros s ->. reflexivity.
Qed.

(** X16: the default figure size is chosen by comparing [backend] as it was
    passed, while the dispatch lower-cases it and accepts "mpl": unless the
    selector is literally "matplotlib" or "bokeh", a call without [figsize]
    hands no figure size to the rendering function. *)
Theorem plot_evoked_figsize (a : arguments) (fig : figure) :
  figsize a = None ->
  backend a <> "matplotlib" -> backend a <> "bokeh" ->
  returns (run a) fig ->
  exists fn args, render fn args = inr fig /\ pa_figsize args = None.
Proof.
  intros Hf H1 H2 H.
  destruct (plot_evoked_returns a fig H)
    as (p & epochs & time & epochs' & time' & fn & _ & _ & _ & _ & Hr).
  eexists _, _. split; [exact Hr|]. simpl.
  unfold define_figsize. rewrite Hf.
  destruct (String.eqb_spec (backend a) "matplotlib"); [done|].
  destruct (String.eqb_spec (backend a) "bokeh"); [done|]. reflexivity.
Qed.

End PlotEvokedRendering.

Lemma plot_evoked_labels_witness :
  let a := with_epochs (EpochsList Fixtures.two_conditions) (Some 2) None in
  let b := with_epochs (EpochsList Fixtures.two_conditions) (Some 2)
             (Some (LabelsStr "stimulus")) in
  (exists fig fn args,
     returns (Fixtures.sample_plot_evoked a) fig /\
     Fixtures.sample_render fn args = inr fig /\
     length (pa_labels args) = length (pa_epochs args) /\
     pa_labels fig = ["Condition 1"; "Condition 2"] /\
     map ncols (pa_epochs fig) = [2%nat; 2%nat]) /\
  (exists fig fn args,
     returns (Fixtures.sample_plot_evoked b) fig /\
     Fixtures.sample_render fn args = inr fig /\
     pa_labels args = ["stimulus"] /\
     length (pa_epochs args) = 2%nat).
Proof.
  intros a b. split.
  - assert (H : exists fig,
               returns (Fixtures.sample_plot_evoked a) fig /\
               pa_labels fig = ["Condition 1"; "Condition 2"] /\
               map ncols (pa_epochs fig) = [2%nat; 2%nat]).
    { eexists. split; [vm_compute; reflexivity|]. split; reflexivity. }
    destruct H as (fig & H & Hl & Hc). exists fig.
    destruct (plot_evoked_labels Py.lower Fixtures.full_installation []
                Fixtures.sample_peaks Fixtures.sample_peaks
                Fixtures.sample_heart_rate Fixtures.sample_to_epochs
                plot_evoked_args Fixtures.sample_render a fig H)
      as (fn & args & Hr & Hn & _).
    exists fn, args. split; [exact H|]. split; [exact Hr|].
    split; [apply Hn; reflexivity|]. split; [exact Hl | exact Hc].
  - assert (H : exists fig,
               returns (Fixtures.sample_plot_evoked b) fig /\
               length (pa_epochs fig) = 2%nat).
    { eexists. split; [vm_compute; reflexivity | reflexivity]. }
    destruct H as (fig & H & Hc). exists fig.
    destruct (plot_evoked_labels Py.lower Fixtures.full_installation []
                Fixtures.sample_peaks Fixtures.sample_peaks
                Fixtures.sample_heart_rate Fixtures.sample_to_epochs
                plot_evoked_args Fixtures.sample_render b fig H)
      as (fn & args & Hr & _ & Hs).
    exists fn, args. split; [exact H|]. split; [exact Hr|].
    split; [apply (Hs "stimulus"); reflexivity|].
    unfold Fixtures.sample_render in Hr. injection Hr as ->. exact Hc.
Defined.

Lemma plot_evoked_figsize_witness :
  let a := with_window
             (with_backend
                (Fixtures.call_with None (Some Fixtures.sample_rr) "ppg"
                   PaletteNone) "mpl") (Fixtures.f 0) (Fixtures.f 1) 2 in
  exists fig fn args,
    returns (Fixtures.sample_plot_evoked a) fig /\
    Fixtures.sample_render fn args = inr fig /\ pa_figsize args = None.
Proof.
  intros a.
  assert (H : exists fig, returns (Fixtures.sample_plot_evoked a) fig).
  { eexists. vm_compute. reflexivity. }
  destruct H as [fig H]. exists fig.
  destruct (plot_evoked_figsize Py.lower Fixtures.full_installation []
              Fixtures.sample_peaks Fixtures.sample_peaks
              Fixtures.sample_heart_rate Fixtures.sample_to_epochs
              plot_evoked_args Fixtures.sample_render a fig)
    as (fn & args & Hr & Hn); [reflexivity | discriminate | discriminate
                              | exact H |].
  exists fn, args. split; [exact H|]. split; [exact Hr | exact Hn].
Defined.
